(** * Authentication and session-token lifecycle of the forecasting backend

    Shallow embedding of the Express/Mongoose backend:
    - [models/user.model.js]      (user schema, pre-save hook, document methods),
    - [controllers/user.controller.js] (register, login, logout, token issuing),
    - [middlewares/authorisation.js]   (the access verifier [verifyJWT]),
    - [routes/user.routes.js]          (the [/logout] route chain).

    The credential store is an explicit list of documents in natural order,
    handlers are state-passing functions returning an outcome and the new
    store, and JavaScript exceptions are values of [Exn].  The third-party
    libraries (bcrypt, jsonwebtoken's HMAC, the upload helper, the process
    environment) are fields of a [Platform] record over which everything is
    parametric. *)

From Stdlib Require Import String Ascii List Bool Arith PeanoNat NArith Lia.
Import ListNotations.
Open Scope string_scope.

(* ================================================================= *)
(** ** JavaScript strings: [trim], [toLowerCase], truthiness *)

Module JsString.

(** A string of the model is the UTF-8 encoding of the JavaScript string;
    [bytes] writes one down byte by byte. *)
Definition bytes (l : list nat) : string :=
  fold_right (fun n s => String (ascii_of_nat n) s) EmptyString l.

(** What [String.prototype.trim] removes, the WhiteSpace and
    LineTerminator code points of ECMAScript, each in its encoding: tab,
    line feed, vertical tab, form feed, carriage return, space, U+00A0,
    U+1680, U+2000 to U+200A, U+2028, U+2029, U+202F, U+205F, U+3000 and
    U+FEFF. *)
Definition white_space : list string :=
  [bytes [9]; bytes [10]; bytes [11]; bytes [12]; bytes [13]; bytes [32];
   bytes [194; 160];
   bytes [225; 154; 128];
   bytes [226; 128; 128]; bytes [226; 128; 129]; bytes [226; 128; 130];
   bytes [226; 128; 131]; bytes [226; 128; 132]; bytes [226; 128; 133];
   bytes [226; 128; 134]; bytes [226; 128; 135]; bytes [226; 128; 136];
   bytes [226; 128; 137]; bytes [226; 128; 138];
   bytes [226; 128; 168]; bytes [226; 128; 169];
   bytes [226; 128; 175];
   bytes [226; 129; 159];
   bytes [227; 128; 128];
   bytes [239; 187; 191]].

(** [s] without the prefix [token], when it starts with it. *)
Fixpoint strip_prefix (token s : string) : option string :=
  match token with
  | EmptyString => Some s
  | String a token' =>
    match s with
    | EmptyString => None
    | String b s' => if Ascii.eqb a b then strip_prefix token' s' else None
    end
  end.

(** [s] without its leading token, for the first of [tokens] it starts
    with. *)
Fixpoint strip_any (tokens : list string) (s : string) : option string :=
  match tokens with
  | [] => None
  | token :: rest =>
    match strip_prefix token s with
    | Some s' => Some s'
    | None => strip_any rest s
    end
  end.

(** Remove leading tokens, at most [fuel] of them. *)
Fixpoint drop_leading (tokens : list string) (fuel : nat) (s : string)
    : string :=
  match fuel with
  | 0 => s
  | S fuel' =>
    match strip_any tokens s with
    | Some s' => drop_leading tokens fuel' s'
    | None => s
    end
  end.

Fixpoint rev (s : string) : string :=
  match s with
  | EmptyString => EmptyString
  | String c s' => rev s' ++ String c EmptyString
  end.

Definition trimStart (s : string) : string :=
  drop_leading white_space (String.length s) s.

Definition trimEnd (s : string) : string :=
  rev (drop_leading (map rev white_space) (String.length s) (rev s)).

Definition trim (s : string) : string := trimEnd (trimStart s).

(** A string is truthy when it is not empty. *)
Definition truthy (s : string) : bool := negb (String.eqb s "").

(** Truthiness of a possibly [undefined] string. *)
Definition truthy_opt (o : option string) : bool :=
  match o with
  | Some s => truthy s
  | None => false
  end.

End JsString.

(* ================================================================= *)
(** ** Tokens (values handled by the jsonwebtoken library) *)

Definition ObjectId := nat.

(** The claims object handed to [jwt.sign].  The access token carries all
    four fields, the refresh token only [_id]. *)
Record Payload : Type := mkPayload {
  p_id : ObjectId;
  p_Email : option string;
  p_UserName : option string;
  p_fullName : option string
}.

(** A compact token once parsed: the claims, the issue and expiry instants
    (seconds) added by the library, and the signature tag. *)
Record Token : Type := mkToken {
  tk_payload : Payload;
  tk_iat : nat;
  tk_exp : nat;
  tk_signature : string
}.

(** A string that travels in a cookie or header: either it does not
    decode as a compact token, or it does. *)
Inductive JwtString : Type :=
| Malformed (raw : string)
| Compact (t : Token).

Definition jwt_truthy (j : JwtString) : bool :=
  match j with
  | Malformed raw => JsString.truthy raw
  | Compact _ => true
  end.

(* ================================================================= *)
(** ** The user schema ([models/user.model.js]) *)

Inductive Path : Type :=
| PUserName | PEmail | PfullName | Pavatar | PcoverImage
| PwatchHistory | Ppassword | PrefreshToken.

Definition path_eqb (p q : Path) : bool :=
  match p, q with
  | PUserName, PUserName | PEmail, PEmail | PfullName, PfullName
  | Pavatar, Pavatar | PcoverImage, PcoverImage
  | PwatchHistory, PwatchHistory | Ppassword, Ppassword
  | PrefreshToken, PrefreshToken => true
  | _, _ => false
  end.

(** A stored or loaded user.  [password] and [refreshToken] are optional
    because a projection ([select "-password -refreshToken"]) or an [$unset]
    removes them from the object.  The [createdAt] and [updatedAt] stamps
    that [timestamps: true] makes the mapper maintain are not part of the
    record: no statement below is about them. *)
Record UserDoc : Type := mkUser {
  _id : ObjectId;
  UserName : string;
  Email : string;
  fullName : string;
  avatar : string;
  coverImage : option string;
  watchHistory : list ObjectId;
  password : option string;
  refreshToken : option JwtString
}.

(** The collection, in natural (insertion) order. *)
Definition Store := list UserDoc.

(* ================================================================= *)
(** ** Exceptions and results *)

(** Modelled from the spec: [utils/ApiError.js] is not among the sources;
    per the error envelope of the spec an [ApiError] carries a status code and
    a message, as every [new ApiError(status, message)] call site passes them.
    The message is a text or, in the access verifier, the caught exception
    itself.  The other constructors are the exceptions raised by the runtime
    and the libraries. *)
Inductive Exn : Type :=
| ApiError (statusCode : nat) (message : Msg)
| TypeError (m : string)
| Error (m : string)
| JsonWebTokenError (m : string)
| TokenExpiredError
| ValidationError (paths : list Path)
| DocumentNotFoundError
| MongoServerError (code : N)
with Msg : Type :=
| Text (s : string)
| Cause (e : Exn).

Inductive Result (A : Type) : Type :=
| Ok (a : A)
| Throw (e : Exn).

Arguments Ok {A} a.
Arguments Throw {A} e.

(** Effectful code over the store: a thrown exception keeps the writes made
    before it. *)
Definition M (A : Type) : Type := Store -> Result A * Store.

Definition ret {A} (a : A) : M A := fun st => (Ok a, st).

Definition throw {A} (e : Exn) : M A := fun st => (Throw e, st).

Definition bind {A B} (m : M A) (k : A -> M B) : M B :=
  fun st =>
    match m st with
    | (Ok a, st') => k a st'
    | (Throw e, st') => (Throw e, st')
    end.

(** [try { m } catch (error) { h error }] *)
Definition try_catch {A} (m : M A) (h : Exn -> M A) : M A :=
  fun st =>
    match m st with
    | (Ok a, st') => (Ok a, st')
    | (Throw e, st') => h e st'
    end.

(** A pure step that may throw. *)
Definition lift {A} (r : Result A) : M A := fun st => (r, st).

Declare Scope js_scope.
Delimit Scope js_scope with js.
Notation "x <- m ;; k" := (bind m (fun x => k))
  (at level 61, m at next level, right associativity) : js_scope.
Notation "'when' c 'throws' e ;; k" := (if c then throw e else k)
  (at level 61, c at next level, e at next level, right associativity)
  : js_scope.

(* ================================================================= *)
(** ** The platform: libraries, environment and store behaviour

    Nothing below is code of the repository; the handlers are parametric in
    it. *)

Record Platform : Type := mkPlatform {
  (** [bcrypt.hash(data, rounds)]; the salt is chosen inside. *)
  bcrypt_hash : string -> nat -> string;
  (** [bcrypt.compare(data, digest)] *)
  bcrypt_compare : string -> string -> bool;
  (** The keyed tag jsonwebtoken computes over claims and instants. *)
  hmac : string -> Payload -> nat -> nat -> string;
  (** [utils/cloudinary.js]: a local path (or [undefined]) to the URL of the
      uploaded asset, or [null]. *)
  UploadOnCloudinary : option string -> option string;
  (** [String.prototype.toLowerCase] of the runtime, Unicode's default
      lower-casing, on the encoded strings. *)
  toLowerCase : string -> string;
  (** [process.env] *)
  ACCESS_TOKEN_SECRET : option string;
  ACCESS_TOKEN_EXPIRY : option nat;
  REFRESH_TOKEN_SECRET : option string;
  REFRESH_TOKEN_EXPIRY : option nat;
  (** How the mapper treats an equality clause whose value is [undefined]:
      [true] drops the clause (it matches every document), [false] compares
      with [null] (it matches none, all queried paths being required). *)
  undefined_matches_all : bool;
  (** Whether the store refuses the next write in a given state. *)
  write_fails : Store -> bool
}.

(* ================================================================= *)
(** ** jsonwebtoken: [jwt.sign] and [jwt.verify] *)

(** The text of the library's error for an [expiresIn] option that is
    neither a number nor a timespan string; the option name is quoted in
    it. *)
Definition expiresIn_message : string :=
  String (ascii_of_nat 34)
    ("expiresIn" ++
     String (ascii_of_nat 34)
       " should be a number of seconds or string representing a timespan").

(** The number of pieces [raw.split(".")] gives. *)
Fixpoint split_dot_length (raw : string) : nat :=
  match raw with
  | EmptyString => 1
  | String c raw' =>
    if Ascii.eqb c "."%char
    then S (split_dot_length raw')
    else split_dot_length raw'
  end.

Section Jwt.
Variable P : Platform.

(** [jwt.sign(payload, secret, { expiresIn })] at clock [now]. *)
Definition jwt_sign (payload : Payload) (secret : option string)
    (expiresIn : option nat) (now : nat) : Result JwtString :=
  match secret with
  | None => Throw (Error "secretOrPrivateKey must have a value")
  | Some key =>
    match expiresIn with
    | None => Throw (Error expiresIn_message)
    | Some ttl =>
      Ok (Compact {| tk_payload := payload;
                     tk_iat := now;
                     tk_exp := now + ttl;
                     tk_signature := hmac P key payload now (now + ttl) |})
    end
  end.

(** [jwt.verify(token, secret)] at clock [now]: presence, shape (three
    pieces, else "jwt malformed"; three pieces that do not decode, "invalid
    token"), signature, then expiry; the result is the decoded claims. *)
Definition jwt_verify (token : option JwtString) (secret : option string)
    (now : nat) : Result Payload :=
  match token with
  | None => Throw (JsonWebTokenError "jwt must be provided")
  | Some (Malformed raw) =>
    if JsString.truthy raw
    then if Nat.eqb (split_dot_length raw) 3
         then Throw (JsonWebTokenError "invalid token")
         else Throw (JsonWebTokenError "jwt malformed")
    else Throw (JsonWebTokenError "jwt must be provided")
  | Some (Compact t) =>
    match secret with
    | None => Throw (JsonWebTokenError "secret or public key must be provided")
    | Some key =>
      if String.eqb (tk_signature t)
                    (hmac P key (tk_payload t) (tk_iat t) (tk_exp t))
      then if Nat.leb (tk_exp t) now
           then Throw TokenExpiredError
           else Ok (tk_payload t)
      else Throw (JsonWebTokenError "invalid signature")
    end
  end.

End Jwt.

(* ================================================================= *)
(** ** Documents and the store (what the mapper does for the schema) *)

(** A document instance: the object, whether it was never persisted, and
    the paths assigned since it was loaded. *)
Record Document : Type := mkDocument {
  d_doc : UserDoc;
  d_isNew : bool;
  d_modified : list Path
}.

Definition loaded (u : UserDoc) : Document :=
  {| d_doc := u; d_isNew := false; d_modified := [] |}.

Definition isModified (p : Path) (D : Document) : bool :=
  existsb (path_eqb p) (d_modified D).

Definition with_password (u : UserDoc) (v : option string) : UserDoc :=
  mkUser (_id u) (UserName u) (Email u) (fullName u) (avatar u)
         (coverImage u) (watchHistory u) v (refreshToken u).

Definition with_refreshToken (u : UserDoc) (v : option JwtString) : UserDoc :=
  mkUser (_id u) (UserName u) (Email u) (fullName u) (avatar u)
         (coverImage u) (watchHistory u) (password u) v.

(** [doc.password = v] *)
Definition assign_password (D : Document) (v : string) : Document :=
  {| d_doc := with_password (d_doc D) (Some v);
     d_isNew := d_isNew D;
     d_modified := Ppassword :: d_modified D |}.

(** [doc.refreshToken = v] *)
Definition assign_refreshToken (D : Document) (v : JwtString) : Document :=
  {| d_doc := with_refreshToken (d_doc D) (Some v);
     d_isNew := d_isNew D;
     d_modified := PrefreshToken :: d_modified D |}.

(** [.select("-password -refreshToken")] *)
Definition select_without_secrets (u : UserDoc) : UserDoc :=
  with_refreshToken (with_password u None) None.

(** Writing one path of [src] into [dst], as a [$set] of that path does. *)
Definition copy_path (p : Path) (src dst : UserDoc) : UserDoc :=
  match p with
  | PUserName =>
      mkUser (_id dst) (UserName src) (Email dst) (fullName dst) (avatar dst)
             (coverImage dst) (watchHistory dst) (password dst) (refreshToken dst)
  | PEmail =>
      mkUser (_id dst) (UserName dst) (Email src) (fullName dst) (avatar dst)
             (coverImage dst) (watchHistory dst) (password dst) (refreshToken dst)
  | PfullName =>
      mkUser (_id dst) (UserName dst) (Email dst) (fullName src) (avatar dst)
             (coverImage dst) (watchHistory dst) (password dst) (refreshToken dst)
  | Pavatar =>
      mkUser (_id dst) (UserName dst) (Email dst) (fullName dst) (avatar src)
             (coverImage dst) (watchHistory dst) (password dst) (refreshToken dst)
  | PcoverImage =>
      mkUser (_id dst) (UserName dst) (Email dst) (fullName dst) (avatar dst)
             (coverImage src) (watchHistory dst) (password dst) (refreshToken dst)
  | PwatchHistory =>
      mkUser (_id dst) (UserName dst) (Email dst) (fullName dst) (avatar dst)
             (coverImage dst) (watchHistory src) (password dst) (refreshToken dst)
  | Ppassword => with_password dst (password src)
  | PrefreshToken => with_refreshToken dst (refreshToken src)
  end.

Definition copy_paths (ps : list Path) (src dst : UserDoc) : UserDoc :=
  fold_right (fun p acc => copy_path p src acc) dst ps.

(** The first document satisfying a filter, in natural order. *)
Definition first_match (f : UserDoc -> bool) (st : Store) : option UserDoc :=
  find f st.

(** Apply [g] to the first document satisfying [f]. *)
Fixpoint update_first (f : UserDoc -> bool) (g : UserDoc -> UserDoc)
    (st : Store) : Store :=
  match st with
  | [] => []
  | d :: rest => if f d then g d :: rest else d :: update_first f g rest
  end.

Definition has_id (id : ObjectId) (d : UserDoc) : bool := Nat.eqb (_id d) id.

Definition lookup (id : ObjectId) (st : Store) : option UserDoc :=
  first_match (has_id id) st.

(** The schema's string setters: [lowercase: true, trim: true] on
    [UserName] and [Email], [trim: true] on [fullName]: the value's own
    [trim()] and [toLowerCase()].  The mapper runs them on assigned values
    and on the values of query filters. *)
Definition set_lowercase_trim (P : Platform) (s : string) : string :=
  toLowerCase P (JsString.trim s).

Definition set_trim (s : string) : string := JsString.trim s.

(** The object literal handed to [user.create]. *)
Record Fields : Type := mkFields {
  f_fullName : option string;
  f_avatar : option string;
  f_coverImage : option string;
  f_Email : option string;
  f_password : option string;
  f_UserName : option string
}.

Definition cast_fields (P : Platform) (f : Fields) : Fields :=
  {| f_fullName := option_map set_trim (f_fullName f);
     f_avatar := f_avatar f;
     f_coverImage := f_coverImage f;
     f_Email := option_map (set_lowercase_trim P) (f_Email f);
     f_password := f_password f;
     f_UserName := option_map (set_lowercase_trim P) (f_UserName f) |}.

(** Paths declared [required: true] whose value is absent or empty. *)
Definition required_failures (f : Fields) : list Path :=
  (if JsString.truthy_opt (f_UserName f) then [] else [PUserName]) ++
  (if JsString.truthy_opt (f_Email f) then [] else [PEmail]) ++
  (if JsString.truthy_opt (f_fullName f) then [] else [PfullName]) ++
  (if JsString.truthy_opt (f_avatar f) then [] else [Pavatar]) ++
  (if JsString.truthy_opt (f_password f) then [] else [Ppassword]).

Definition or_empty (o : option string) : string :=
  match o with
  | Some s => s
  | None => ""
  end.

Definition defined {A} (o : option A) : bool :=
  match o with
  | Some _ => true
  | None => false
  end.

(** The paths a new document marks as modified: those the literal sets. *)
Definition set_paths (f : Fields) : list Path :=
  (if defined (f_fullName f) then [PfullName] else []) ++
  (if defined (f_avatar f) then [Pavatar] else []) ++
  (if defined (f_coverImage f) then [PcoverImage] else []) ++
  (if defined (f_Email f) then [PEmail] else []) ++
  (if defined (f_password f) then [Ppassword] else []) ++
  (if defined (f_UserName f) then [PUserName] else []).

(** An identifier no stored document has. *)
Definition fresh_id (st : Store) : ObjectId :=
  S (fold_right Nat.max 0 (map _id st)).

(** [new user(fields)] once the required paths are known to be present. *)
Definition new_document (id : ObjectId) (f : Fields) : Document :=
  {| d_doc := mkUser id (or_empty (f_UserName f)) (or_empty (f_Email f))
                     (or_empty (f_fullName f)) (or_empty (f_avatar f))
                     (f_coverImage f) [] (f_password f) None;
     d_isNew := true;
     d_modified := set_paths f |}.

(** The unique indexes on [UserName] and [Email]. *)
Definition violates_unique (u : UserDoc) (st : Store) : bool :=
  existsb (fun d => (String.eqb (UserName d) (UserName u)
                     || String.eqb (Email d) (Email u))%bool) st.

Definition after_save (D : Document) : Document :=
  {| d_doc := d_doc D; d_isNew := false; d_modified := [] |}.

(* ================================================================= *)
(** ** [models/user.model.js]: hook and methods; the mapper's queries *)

Section Model.
Variable P : Platform.

(** [userSchema.pre("save", ...)]: hash the password with cost 11 when,
    and only when, the password path is modified.  The hook is an async
    function, so the mapper goes on when its promise settles, also on the
    path that does not call [next()].  The second component counts the
    calls made to [bcrypt.hash]. *)
Definition pre_save (D : Document) : Result (Document * nat) :=
  if isModified Ppassword D then
    match password (d_doc D) with
    | Some plain => Ok (assign_password D (bcrypt_hash P plain 11), 1)
    | None => Throw (Error "data and salt arguments required")
    end
  else Ok (D, 0).

(** [userSchema.methods.isPasswordCorrect] *)
Definition isPasswordCorrect (this : UserDoc) (pw : option string)
    : Result bool :=
  match pw, password this with
  | Some plain, Some digest => Ok (bcrypt_compare P plain digest)
  | _, _ => Throw (Error "data and hash arguments required")
  end.

(** [userSchema.methods.generateAccessToken] *)
Definition generateAccessToken (this : UserDoc) (now : nat)
    : Result JwtString :=
  jwt_sign P
    {| p_id := _id this;
       p_Email := Some (Email this);
       p_UserName := Some (UserName this);
       p_fullName := Some (fullName this) |}
    (ACCESS_TOKEN_SECRET P) (ACCESS_TOKEN_EXPIRY P) now.

(** [userSchema.methods.generateRefreshToken] *)
Definition generateRefreshToken (this : UserDoc) (now : nat)
    : Result JwtString :=
  jwt_sign P
    {| p_id := _id this;
       p_Email := None;
       p_UserName := None;
       p_fullName := None |}
    (REFRESH_TOKEN_SECRET P) (REFRESH_TOKEN_EXPIRY P) now.

(** An equality clause [{ path: value }] of a filter, the value cast by
    the path's setter. *)
Definition eq_clause (get : UserDoc -> string) (cast : string -> string)
    (value : option string) (d : UserDoc) : bool :=
  match value with
  | Some v => String.eqb (get d) (cast v)
  | None => undefined_matches_all P
  end.

(** [user.findOne({ $or: [{ UserName }, { Email }] })] *)
Definition findOne_UserName_or_Email (uname email : option string)
    : M (option UserDoc) :=
  fun st =>
    (Ok (first_match
           (fun d => (eq_clause UserName (set_lowercase_trim P) uname d
                      || eq_clause Email (set_lowercase_trim P) email d)%bool)
           st),
     st).

(** [user.findById(id)] *)
Definition findById (id : ObjectId) : M (option Document) :=
  fun st => (Ok (option_map loaded (lookup id st)), st).

(** [user.findById(id).select("-password -refreshToken")].  Like the
    other queries that only read, it is modelled as never failing. *)
Definition findById_select (id : ObjectId) : M (option UserDoc) :=
  fun st => (Ok (option_map select_without_secrets (lookup id st)), st).

(** The filter [{ _id: id }] where [id] may be [undefined]. *)
Definition id_clause (id : option ObjectId) (d : UserDoc) : bool :=
  match id with
  | Some i => has_id i d
  | None => undefined_matches_all P
  end.

(** [user.findByIdAndUpdate(id, { $unset: { refreshToken: 1 } }, { new: true })]:
    a query update, no save hook runs. *)
Definition findByIdAndUpdate_unset_refreshToken (id : option ObjectId)
    : M (option UserDoc) :=
  fun st =>
    if write_fails P st then (Throw (MongoServerError 0%N), st)
    else
      (Ok (option_map (fun d => with_refreshToken d None)
                      (first_match (id_clause id) st)),
       update_first (id_clause id) (fun d => with_refreshToken d None) st).

(** [doc.save({ validateBeforeSave: false })] and the tail of
    [user.create]: run the hook, then insert a new document or [$set] the
    modified paths of a loaded one; with nothing to persist the mapper
    only checks that the document still exists. *)
Definition save (D : Document) : M Document :=
  (r <- lift (pre_save D) ;;
   let D' := fst r in
   if d_isNew D' then
     fun st =>
       if write_fails P st then (Throw (MongoServerError 0%N), st)
       else if violates_unique (d_doc D') st
            then (Throw (MongoServerError 11000%N), st)
            else (Ok (after_save D'), (st ++ [d_doc D'])%list)
   else
     match d_modified D' with
     | [] =>
       fun st =>
         match lookup (_id (d_doc D')) st with
         | None => (Throw DocumentNotFoundError, st)
         | Some _ => (Ok D', st)
         end
     | ps =>
       fun st =>
         if write_fails P st then (Throw (MongoServerError 0%N), st)
         else
           match lookup (_id (d_doc D')) st with
           | None => (Throw DocumentNotFoundError, st)
           | Some _ =>
             (Ok (after_save D'),
              update_first (has_id (_id (d_doc D')))
                           (copy_paths ps (d_doc D')) st)
           end
     end)%js.

(** [user.create(fields)]: cast by the setters, validate the required
    paths, then save the new document. *)
Definition create (f : Fields) : M Document :=
  let f' := cast_fields P f in
  match required_failures f' with
  | [] => fun st => save (new_document (fresh_id st) f') st
  | missing => throw (ValidationError missing)
  end.

End Model.

(* ================================================================= *)
(** ** Requests and responses *)

(** [req.body] after destructuring, for bodies whose fields are strings:
    an absent field is [undefined].  The other JSON values a client can
    send (numbers, booleans, arrays, objects) are outside the model. *)
Record Body : Type := mkBody {
  b_fullName : option string;
  b_Email : option string;
  b_UserName : option string;
  b_password : option string
}.

(** What [req.user] may hold: the imported model object [user] itself, or
    a user record. *)
Inductive Attached : Type :=
| UserModel
| UserRecord (u : UserDoc).

(** [authorization_token] is the [Authorization] header once
    [.replace("Bearer ", "")] has removed the scheme. *)
Record Request : Type := mkRequest {
  body : Body;
  cookies_accessToken : option JwtString;
  authorization_token : option JwtString;
  files_avatar_path : option string;
  files_coverImage_path : option string;
  req_user : option Attached
}.

Definition set_req_user (req : Request) (a : Attached) : Request :=
  {| body := body req;
     cookies_accessToken := cookies_accessToken req;
     authorization_token := authorization_token req;
     files_avatar_path := files_avatar_path req;
     files_coverImage_path := files_coverImage_path req;
     req_user := Some a |}.

(** The [data] argument of a response envelope. *)
Inductive Data : Type :=
| DataUser (u : UserDoc)
| DataLogin (user : UserDoc) (accessToken refreshToken : JwtString)
| DataEmpty.

(** Modelled from the spec: [utils/ApiResponse.js] is not among the
    sources; the envelope keeps the three arguments the call sites pass,
    status code, data and message. *)
Record ApiResponse : Type := mkApiResponse {
  ar_statusCode : nat;
  ar_data : Data;
  ar_message : string
}.

(** What the handler sent: the HTTP status, the cookies set and cleared in
    call order, and the JSON body. *)
Record Response : Type := mkResponse {
  status : nat;
  cookies_set : list (string * JwtString);
  cookies_cleared : list string;
  json : ApiResponse
}.

(** [a || b] on possibly absent token strings. *)
Definition or_else (a b : option JwtString) : option JwtString :=
  match a with
  | Some j => if jwt_truthy j then a else b
  | None => b
  end.

(** [field?.trim() === ""] *)
Definition trims_to_empty (field : option string) : bool :=
  match field with
  | Some s => String.eqb (JsString.trim s) ""
  | None => false
  end.

(** [x._id] for what [req.user] holds: the model object has no such
    property. *)
Definition attached_id (a : Attached) : option ObjectId :=
  match a with
  | UserModel => None
  | UserRecord u => Some (_id u)
  end.

(* ================================================================= *)
(** ** [controllers/user.controller.js], [middlewares/authorisation.js],
       [routes/user.routes.js] *)

Section Controller.
Variable P : Platform.

Local Open Scope js_scope.

Definition generateAccessAndRefreshToken (userId : ObjectId) (now : nat)
    : M (JwtString * JwtString) :=
  try_catch
    (found <- findById userId ;;
     match found with
     | None => throw (ApiError 404 (Text "User not found"))
     | Some User =>
       accessToken <- lift (generateAccessToken P (d_doc User) now) ;;
       refreshToken <- lift (generateRefreshToken P (d_doc User) now) ;;
       let User := assign_refreshToken User refreshToken in
       _ <- save P User ;;
       ret (accessToken, refreshToken)
     end)
    (fun error => throw (ApiError 500 (Text "problem is here"))).

Definition registerUser (req : Request) : M Response :=
  let fullName := b_fullName (body req) in
  let Email := b_Email (body req) in
  let UserName := b_UserName (body req) in
  let password := b_password (body req) in
  when existsb trims_to_empty [fullName; Email; UserName; password]
    throws ApiError 400 (Text "all fields are required") ;;
  existedUser <- findOne_UserName_or_Email P UserName Email ;;
  when defined existedUser
    throws ApiError 409 (Text "UserName or Email already exists") ;;
  let avatarLocalPath := files_avatar_path req in
  let coverImageLocalPath := files_coverImage_path req in
  when negb (JsString.truthy_opt avatarLocalPath)
    throws ApiError 400 (Text "Avatar File 1 is required") ;;
  let avatar := UploadOnCloudinary P avatarLocalPath in
  let coverImage := UploadOnCloudinary P coverImageLocalPath in
  let coverImageurl :=
    if JsString.truthy_opt coverImage then or_empty coverImage else "" in
  match avatar with
  | None => throw (ApiError 400 (Text "Avatar File 2 is Required"))
  | Some avatar_url =>
    match UserName with
    | None =>
      throw (TypeError "Cannot read properties of undefined (reading 'toLowerCase')")
    | Some uname =>
      newuser <- create P
        {| f_fullName := fullName;
           f_avatar := Some avatar_url;
           f_coverImage := Some coverImageurl;
           f_Email := Email;
           f_password := password;
           f_UserName := Some (toLowerCase P uname) |} ;;
      createdUser <- findById_select (_id (d_doc newuser)) ;;
      match createdUser with
      | None =>
        throw (ApiError 500
                 (Text "Something went wrong while registering the user"))
      | Some created =>
        ret {| status := 201;
               cookies_set := [];
               cookies_cleared := [];
               json := mkApiResponse 200 (DataUser created)
                         "user registered succesfully" |}
      end
    end
  end.

Definition loginUser (req : Request) (now : nat) : M Response :=
  let UserName := b_UserName (body req) in
  let password := b_password (body req) in
  let Email := b_Email (body req) in
  when (negb (JsString.truthy_opt Email) && negb (JsString.truthy_opt UserName))%bool
    throws ApiError 400 (Text "enter username or email to continue") ;;
  when match password with Some s => String.eqb s "" | None => false end
    throws ApiError 400 (Text "enter your password") ;;
  found <- findOne_UserName_or_Email P UserName Email ;;
  match found with
  | None => throw (ApiError 409 (Text "User donot exist"))
  | Some existedUser =>
    isCorrect <- lift (isPasswordCorrect P existedUser password) ;;
    when negb isCorrect
      throws ApiError 401 (Text "invalid user credentials") ;;
    let loginUser := existedUser in
    tokens <- generateAccessAndRefreshToken (_id loginUser) now ;;
    let accessToken := fst tokens in
    let refreshToken := snd tokens in
    when (negb (jwt_truthy accessToken) || negb (jwt_truthy refreshToken))%bool
      throws ApiError 500 (Text "Failed to generate authentication tokens") ;;
    ret {| status := 200;
           cookies_set := [("accessToken", accessToken);
                           ("refreshToken", refreshToken)];
           cookies_cleared := [];
           json := mkApiResponse 200
                     (DataLogin loginUser accessToken refreshToken)
                     "User Logged in succesfully" |}
  end.

Definition logoutUser (req : Request) : M Response :=
  match req_user req with
  | None =>
    throw (TypeError "Cannot read properties of undefined (reading '_id')")
  | Some attached =>
    _ <- findByIdAndUpdate_unset_refreshToken P (attached_id attached) ;;
    ret {| status := 200;
           cookies_set := [];
           cookies_cleared := ["accessToken"; "refreshToken"];
           json := mkApiResponse 200 DataEmpty
                     "user logged out successfully" |}
  end.

(** The access verifier.  [Ok req'] is the call of [next()] with the
    request as mutated.  The decoded claims are an object, so [!Code] is
    false; the query built by [user.findById(...).select(...)] is neither
    awaited nor bound, so it is never run; [user] is the imported model,
    so [!user] is false and the model is what [req.user] receives. *)
Definition verifyJWT (req : Request) (now : nat) : M Request :=
  try_catch
    (let token :=
       or_else (cookies_accessToken req) (authorization_token req) in
     Code <- lift (jwt_verify P token (ACCESS_TOKEN_SECRET P) now) ;;
     let _unawaited := findById_select (p_id Code) in
     ret (set_req_user req UserModel))
    (fun error => throw (ApiError 400 (Cause error))).

(** [router.route("/logout").post(verifyJWT, logoutUser)] *)
Definition logout_route (req : Request) (now : nat) : M Response :=
  req' <- verifyJWT req now ;;
  logoutUser req'.

End Controller.

(** The one exception [generateAccessAndRefreshToken] lets out. *)
Definition problem_is_here : Exn := ApiError 500 (Text "problem is here").


(** The handle or the email of the request, as the schema stores them,
    is that of a stored record. *)
Definition duplicates (P : Platform) (req : Request) (st : Store) : Prop :=
  exists d,
    In d st
    /\ ((exists handle, b_UserName (body req) = Some handle
                        /\ UserName d = set_lowercase_trim P handle)
        \/ (exists email, b_Email (body req) = Some email
                          /\ Email d = set_lowercase_trim P email)).

(** A required body field that is absent, or blank once trimmed. *)
Definition missing_or_blank (field : option string) : bool :=
  match field with
  | Some s => String.eqb (JsString.trim s) ""
  | None => true
  end.

(* ================================================================= *)
(** ** A concrete platform and the scenarios of the specification *)

Module Scenario.

(** A stand-in for the runtime's lower-casing, good for the ASCII strings
    of the scenarios only: it lowers the letters A to Z and leaves every
    other byte. *)
Definition lower_ascii (c : ascii) : ascii :=
  let n := nat_of_ascii c in
  if (Nat.leb 65 n && Nat.leb n 90)%bool then ascii_of_nat (n + 32) else c.

Fixpoint ascii_toLowerCase (s : string) : string :=
  match s with
  | EmptyString => EmptyString
  | String c s' => String (lower_ascii c) (ascii_toLowerCase s')
  end.

(** Stand-ins for the libraries, enough to run the handlers: the digest is
    the plaintext behind a prefix, the tag is the key itself, uploads give
    back the path as URL, lower-casing is the ASCII one above; the
    environment is configured, writes succeed. *)
Definition platform : Platform :=
  {| bcrypt_hash := fun plain _ => "$2b$11$" ++ plain;
     toLowerCase := ascii_toLowerCase;
     bcrypt_compare := fun plain digest => String.eqb ("$2b$11$" ++ plain) digest;
     hmac := fun key _ _ _ => key;
     UploadOnCloudinary := fun path => path;
     ACCESS_TOKEN_SECRET := Some "access-secret";
     ACCESS_TOKEN_EXPIRY := Some 900;
     REFRESH_TOKEN_SECRET := Some "refresh-secret";
     REFRESH_TOKEN_EXPIRY := Some 3600;
     undefined_matches_all := false;
     write_fails := fun _ => false |}.

(** The same platform with undefined filter values dropped. *)
Definition platform_dropping : Platform :=
  {| bcrypt_hash := bcrypt_hash platform;
     bcrypt_compare := bcrypt_compare platform;
     hmac := hmac platform;
     UploadOnCloudinary := UploadOnCloudinary platform;
     toLowerCase := toLowerCase platform;
     ACCESS_TOKEN_SECRET := ACCESS_TOKEN_SECRET platform;
     ACCESS_TOKEN_EXPIRY := ACCESS_TOKEN_EXPIRY platform;
     REFRESH_TOKEN_SECRET := REFRESH_TOKEN_SECRET platform;
     REFRESH_TOKEN_EXPIRY := REFRESH_TOKEN_EXPIRY platform;
     undefined_matches_all := true;
     write_fails := write_fails platform |}.

Definition clock : nat := 1000.

Definition token_for (u : UserDoc) (issued : nat) : JwtString :=
  match generateAccessToken platform u issued with
  | Ok j => j
  | Throw _ => Malformed ""
  end.

Definition refresh_for (u : UserDoc) (issued : nat) : JwtString :=
  match generateRefreshToken platform u issued with
  | Ok j => j
  | Throw _ => Malformed ""
  end.

Definition jane : UserDoc :=
  {| _id := 1; UserName := "janedoe"; Email := "jane@x.com";
     fullName := "Jane Doe"; avatar := "http://cdn/a.png";
     coverImage := Some ""; watchHistory := [];
     password := Some "$2b$11$secret123"; refreshToken := None |}.

Definition bob_logged_out : UserDoc :=
  {| _id := 2; UserName := "bob"; Email := "bob@x.com";
     fullName := "Bob"; avatar := "http://cdn/b.png";
     coverImage := Some ""; watchHistory := [];
     password := Some "$2b$11$hunter2"; refreshToken := None |}.

(** Bob, logged in at instant 990. *)
Definition bob : UserDoc :=
  with_refreshToken bob_logged_out (Some (refresh_for bob_logged_out 990)).

Definition store1 : Store := [jane].
Definition store2 : Store := [jane; bob].

Definition no_body : Body := mkBody None None None None.

Definition login_jane : Request :=
  {| body := mkBody None None (Some "janedoe") (Some "secret123");
     cookies_accessToken := None; authorization_token := None;
     files_avatar_path := None; files_coverImage_path := None;
     req_user := None |}.


(** A request carrying the access token of [u] in its cookie. *)
Definition with_cookie (j : JwtString) : Request :=
  {| body := no_body;
     cookies_accessToken := Some j; authorization_token := None;
     files_avatar_path := None; files_coverImage_path := None;
     req_user := None |}.

(** A user that was never stored (identifier 99). *)
Definition ghost : UserDoc :=
  {| _id := 99; UserName := "ghost"; Email := "ghost@x.com";
     fullName := "Ghost"; avatar := ""; coverImage := None;
     watchHistory := []; password := None; refreshToken := None |}.

(** Registration without the [UserName] field, avatar uploaded. *)
Definition register_without_UserName : Request :=
  {| body := mkBody (Some "Jane Doe") (Some "jane@x.com") None (Some "secret123");
     cookies_accessToken := None; authorization_token := None;
     files_avatar_path := Some "public/temp/a.png";
     files_coverImage_path := None;
     req_user := None |}.

(** Registration of a taken handle (in another case) with a blank
    password. *)
Definition register_taken_blank_password : Request :=
  {| body := mkBody (Some "Jane Roe") (Some "roe@x.com") (Some "JaneDoe") (Some "   ");
     cookies_accessToken := None; authorization_token := None;
     files_avatar_path := Some "public/temp/a.png";
     files_coverImage_path := None;
     req_user := None |}.

(** Registration of a taken handle, in another case and padded. *)
Definition register_taken : Request :=
  {| body := mkBody (Some "Jane Roe") (Some "roe@x.com") (Some " JaneDoe ") (Some "pw");
     cookies_accessToken := None; authorization_token := None;
     files_avatar_path := Some "public/temp/a.png";
     files_coverImage_path := None;
     req_user := None |}.

(** The registration of the specification's scenario. *)
Definition register_jane : Request :=
  {| body := mkBody (Some "Jane Doe") (Some "jane@x.com") (Some "janedoe") (Some "secret123");
     cookies_accessToken := None; authorization_token := None;
     files_avatar_path := Some "http://cdn/a.png";
     files_coverImage_path := None;
     req_user := None |}.

End Scenario.

(* ================================================================= *)
(** ** Store invariants, request variants and further scenarios *)

(** Identifier, handle and email each identify at most one record: the
    primary key and the two [unique: true] indexes of the schema. *)
Definition store_ok (st : Store) : Prop :=
  NoDup (map _id st) /\ NoDup (map UserName st) /\ NoDup (map Email st).

(** A record with its session field removed. *)
Definition without_session (d : UserDoc) : UserDoc := with_refreshToken d None.

(** What a record says about its user, session apart: identifier, handle,
    email, name, avatar, cover image, watch history and password. *)
Definition profile (d : UserDoc)
    : ObjectId * string * string * string * string * option string
      * list ObjectId * option string :=
  (_id d, UserName d, Email d, fullName d, avatar d, coverImage d,
   watchHistory d, password d).

(** The [ApiError]s [registerUser] throws. *)
Definition register_errors : list Exn :=
  [ApiError 400 (Text "all fields are required");
   ApiError 409 (Text "UserName or Email already exists");
   ApiError 400 (Text "Avatar File 1 is required");
   ApiError 400 (Text "Avatar File 2 is Required")].

(** The same request with another [Authorization] header. *)
Definition set_authorization (req : Request) (h : option JwtString)
    : Request :=
  {| body := body req;
     cookies_accessToken := cookies_accessToken req;
     authorization_token := h;
     files_avatar_path := files_avatar_path req;
     files_coverImage_path := files_coverImage_path req;
     req_user := req_user req |}.

(** What a run threw, if it threw. *)
Definition thrown {A : Type} (r : Result A * Store) : option Exn :=
  match fst r with
  | Ok _ => None
  | Throw e => Some e
  end.

(** The exceptions [loginUser] can end in. *)
Definition login_errors : list Exn :=
  [ApiError 400 (Text "enter username or email to continue");
   ApiError 400 (Text "enter your password");
   ApiError 409 (Text "User donot exist");
   ApiError 401 (Text "invalid user credentials");
   problem_is_here;
   Error "data and hash arguments required"].

(** The record [registerUser] stores for a body with all four fields, an
    avatar URL and a cover URL. *)
Definition registered (P : Platform) (id : ObjectId)
    (fullName_ Email_ UserName_ password_ avatar_url cover_url : string)
    : UserDoc :=
  {| _id := id;
     UserName := set_lowercase_trim P UserName_;
     Email := set_lowercase_trim P Email_;
     fullName := set_trim fullName_;
     avatar := avatar_url;
     coverImage := Some cover_url;
     watchHistory := [];
     password := Some (bcrypt_hash P password_ 11);
     refreshToken := None |}.

(** The cover URL [registerUser] derives from the upload of the cover
    image. *)
Definition cover_url_of (P : Platform) (req : Request) : string :=
  if JsString.truthy_opt (UploadOnCloudinary P (files_coverImage_path req))
  then or_empty (UploadOnCloudinary P (files_coverImage_path req))
  else "".

Module Cases.

(** A no-break space (U+00A0), and a string padded with a thin space
    (U+2009) in front and a line separator (U+2028) behind. *)
Definition nbsp : string := JsString.bytes [194; 160].

Definition padded_jane : string :=
  JsString.bytes [226; 128; 137] ++ "Jane" ++ JsString.bytes [226; 128; 168].

(** Registration of a free handle with a password made of one no-break
    space. *)
Definition register_nbsp_password : Request :=
  {| body := mkBody (Some "Jane Roe") (Some "roe@x.com") (Some "janeroe")
                    (Some nbsp);
     cookies_accessToken := None; authorization_token := None;
     files_avatar_path := Some "public/temp/a.png";
     files_coverImage_path := None;
     req_user := None |}.


(** Registration with the handle and email in mixed case and padded. *)
Definition register_jane_mixed : Request :=
  {| body := mkBody (Some " Jane Doe ") (Some "Jane@X.com") (Some " JaneDoe")
                    (Some "secret123");
     cookies_accessToken := None; authorization_token := None;
     files_avatar_path := Some "http://cdn/a.png";
     files_coverImage_path := None;
     req_user := None |}.

(** Login without a password field. *)
Definition login_jane_no_password : Request :=
  {| body := mkBody None None (Some "janedoe") None;
     cookies_accessToken := None; authorization_token := None;
     files_avatar_path := None; files_coverImage_path := None;
     req_user := None |}.

(** A bad cookie next to a good bearer header. *)
Definition bad_cookie_good_header : Request :=
  {| body := Scenario.no_body;
     cookies_accessToken := Some (Malformed "garbage");
     authorization_token := Some (Scenario.token_for Scenario.jane 995);
     files_avatar_path := None; files_coverImage_path := None;
     req_user := None |}.

(** An empty cookie next to a good bearer header. *)
Definition empty_cookie_good_header : Request :=
  {| body := Scenario.no_body;
     cookies_accessToken := Some (Malformed "");
     authorization_token := Some (Scenario.token_for Scenario.jane 995);
     files_avatar_path := None; files_coverImage_path := None;
     req_user := None |}.

(** A request already carrying Bob's record in [req.user]. *)
Definition with_bob_attached : Request :=
  {| body := Scenario.no_body;
     cookies_accessToken := None; authorization_token := None;
     files_avatar_path := None; files_coverImage_path := None;
     req_user := Some (UserRecord (select_without_secrets Scenario.bob)) |}.

End Cases.

(* ================================================================= *)
(** * Properties *)

(** ** The store: lookups after updates *)

Section StoreLemmas.

Lemma first_match_In (f : UserDoc -> bool) (st : Store) (d : UserDoc) :
  first_match f st = Some d -> In d st /\ f d = true.
Proof. unfold first_match. apply find_some. Qed.

Lemma first_match_exists (f : UserDoc -> bool) (st : Store) (d : UserDoc) :
  In d st -> f d = true -> exists d', first_match f st = Some d'.
Proof.
  unfold first_match. intros Hin Hf.
  destruct (find f st) as [d'|] eqn:E.
  - now exists d'.
  - rewrite (find_none f st E d Hin) in Hf. discriminate.
Qed.

Lemma copy_paths_id (ps : list Path) (src dst : UserDoc) :
  _id (copy_paths ps src dst) = _id dst.
Proof.
  induction ps as [|p ps IH]; simpl; [reflexivity|].
  destruct p; simpl; exact IH.
Qed.



(** The records the filter does not select are left as they are. *)
Lemma lookup_update_first_other (f : UserDoc -> bool)
    (g : UserDoc -> UserDoc) (id : ObjectId) :
  (forall d, _id (g d) = _id d) ->
  forall st : Store,
    (forall d, first_match f st = Some d -> _id d <> id) ->
    lookup id (update_first f g st) = lookup id st.
Proof.
  intros Hid st. unfold lookup, first_match.
  induction st as [|d rest IH]; simpl; intros Hsel; [reflexivity|].
  destruct (f d) eqn:Ef; simpl.
  - unfold has_id at 1 3. rewrite Hid.
    destruct (Nat.eqb (_id d) id) eqn:E; [|reflexivity].
    apply Nat.eqb_eq in E. now elim (Hsel d eq_refl).
  - destruct (has_id id d); [reflexivity | now apply IH].
Qed.

(** Writing to the selected record: the lookup sees the written record. *)
Lemma lookup_update_first_same (g : UserDoc -> UserDoc) (id : ObjectId) :
  (forall d, _id (g d) = _id d) ->
  forall (st : Store) (u : UserDoc),
    lookup id st = Some u ->
    lookup id (update_first (has_id id) g st) = Some (g u).
Proof.
  intros Hid st u. unfold lookup, first_match.
  induction st as [|d rest IH]; simpl; [discriminate|].
  destruct (has_id id d) eqn:E; simpl.
  - intros [= ->]. unfold has_id in *. now rewrite Hid, E.
  - rewrite E. exact IH.
Qed.



End StoreLemmas.

(* ================================================================= *)
(** ** Token issuing and verification *)

(** C9.  With the access secret and expiry configured, the access token
    issued for a user verifies against the access secret to exactly the
    claims [_id], [Email], [UserName], [fullName] of that user at every
    instant before issue time plus expiry, and from that instant on
    verification throws [TokenExpiredError]. *)
Theorem access_token_round_trip :
  forall (P : Platform) (u : UserDoc) (now later : nat)
         (key : string) (ttl : nat),
    ACCESS_TOKEN_SECRET P = Some key ->
    ACCESS_TOKEN_EXPIRY P = Some ttl ->
    exists accessToken,
      generateAccessToken P u now = Ok accessToken
      /\ (later < now + ttl ->
          jwt_verify P (Some accessToken) (ACCESS_TOKEN_SECRET P) later
          = Ok {| p_id := _id u;
                  p_Email := Some (Email u);
                  p_UserName := Some (UserName u);
                  p_fullName := Some (fullName u) |})
      /\ (now + ttl <= later ->
          jwt_verify P (Some accessToken) (ACCESS_TOKEN_SECRET P) later
          = Throw TokenExpiredError).
Proof.
  intros P u now later key ttl Hkey Httl.
  unfold generateAccessToken, jwt_sign. rewrite Hkey, Httl.
  eexists; split; [reflexivity|].
  unfold jwt_verify; cbn [tk_signature tk_payload tk_iat tk_exp].
  rewrite String.eqb_refl.
  split; intros Hlt.
  - destruct (Nat.leb_spec (now + ttl) later) as [Hle|_]; [lia | reflexivity].
  - apply Nat.leb_le in Hlt. now rewrite Hlt.
Qed.

Lemma access_token_round_trip_witness :
  exists accessToken,
    generateAccessToken Scenario.platform Scenario.jane 1000 = Ok accessToken
    /\ jwt_verify Scenario.platform (Some accessToken)
         (ACCESS_TOKEN_SECRET Scenario.platform) 1899
       = Ok {| p_id := 1;
               p_Email := Some "jane@x.com";
               p_UserName := Some "janedoe";
               p_fullName := Some "Jane Doe" |}
    /\ jwt_verify Scenario.platform (Some accessToken)
         (ACCESS_TOKEN_SECRET Scenario.platform) 1900
       = Throw TokenExpiredError.
Proof.
  destruct (access_token_round_trip Scenario.platform Scenario.jane
              1000 1899 "access-secret" 900 eq_refl eq_refl) as (tok & Hgen & Hlive & _).
  destruct (access_token_round_trip Scenario.platform Scenario.jane
              1000 1900 "access-secret" 900 eq_refl eq_refl) as (tok' & Hgen' & _ & Hdead).
  exists tok. split; [exact Hgen|]. split.
  - apply Hlive. apply Nat.ltb_lt. reflexivity.
  - assert (tok' = tok) as <-.
    { rewrite Hgen in Hgen'. now injection Hgen'. }
    apply Hdead. apply Nat.leb_le. reflexivity.
Defined.


(** A token whose tag is not the one the secret yields is refused. *)
Lemma jwt_verify_bad_signature (P : Platform) (t : Token) (key : string)
    (now : nat) :
  tk_signature t <> hmac P key (tk_payload t) (tk_iat t) (tk_exp t) ->
  jwt_verify P (Some (Compact t)) (Some key) now
  = Throw (JsonWebTokenError "invalid signature").
Proof.
  intros Hneq. unfold jwt_verify.
  destruct (String.eqb_spec (tk_signature t)
              (hmac P key (tk_payload t) (tk_iat t) (tk_exp t)));
    [contradiction | reflexivity].
Qed.

(* ================================================================= *)
(** ** [generateAccessAndRefreshToken] *)

(** C10.  Whatever goes wrong inside [generateAccessAndRefreshToken] -- no
    user with the identifier (the [ApiError 404] thrown inside the [try]),
    a throwing [jwt.sign], a refused write -- the caller receives the same
    [ApiError 500 "problem is here"] and the store as it was; no other
    exception ever leaves the function. *)
Theorem generateAccessAndRefreshToken_failures_uniform :
  forall (P : Platform) (userId : ObjectId) (now : nat) (st : Store),
    (lookup userId st = None ->
     generateAccessAndRefreshToken P userId now st = (Throw problem_is_here, st))
    /\ (forall u e,
          lookup userId st = Some u ->
          generateAccessToken P u now = Throw e
          \/ generateRefreshToken P u now = Throw e ->
          generateAccessAndRefreshToken P userId now st
          = (Throw problem_is_here, st))
    /\ (forall u accessToken refreshToken,
          lookup userId st = Some u ->
          generateAccessToken P u now = Ok accessToken ->
          generateRefreshToken P u now = Ok refreshToken ->
          write_fails P st = true ->
          generateAccessAndRefreshToken P userId now st
          = (Throw problem_is_here, st))
    /\ (forall e st',
          generateAccessAndRefreshToken P userId now st = (Throw e, st') ->
          e = problem_is_here).
Proof.
  intros P userId now st.
  unfold generateAccessAndRefreshToken, try_catch, bind, findById, lift,
    throw, ret, problem_is_here.
  repeat split.
  - intros ->. reflexivity.
  - intros u e -> [Ha | Hr]; cbn [option_map loaded d_doc].
    + now rewrite Ha.
    + rewrite Hr. now destruct (generateAccessToken P u now).
  - intros u a r -> Ha Hr Hw; cbn [option_map loaded d_doc].
    rewrite Ha, Hr. unfold save, bind, lift, pre_save; simpl.
    now rewrite Hw.
  - intros e st'.
    destruct (lookup userId st) as [u|]; cbn [option_map];
      [|now intros [= <- _]].
    destruct (generateAccessToken P (d_doc (loaded u)) now);
      [|now intros [= <- _]].
    destruct (generateRefreshToken P (d_doc (loaded u)) now) as [rt|];
      [|now intros [= <- _]].
    destruct (save P (assign_refreshToken (loaded u) rt) st) as [[D|e'] s];
      [discriminate | now intros [= <- _]].
Qed.

Lemma generateAccessAndRefreshToken_failures_uniform_witness :
  generateAccessAndRefreshToken Scenario.platform 99 Scenario.clock
    Scenario.store1
  = (Throw problem_is_here, Scenario.store1).
Proof.
  apply (generateAccessAndRefreshToken_failures_uniform
           Scenario.platform 99 Scenario.clock Scenario.store1).
  reflexivity.
Defined.

(* ================================================================= *)
(** ** The pre-save hook and the password hash *)

Section PasswordFrame.
Variable P : Platform.








Lemma verifyJWT_store (req : Request) (now : nat) (st : Store) :
  snd (verifyJWT P req now st) = st.
Proof.
  unfold verifyJWT, try_catch, bind, lift, throw, ret.
  now destruct (jwt_verify P _ _ now).
Qed.


End PasswordFrame.



(* ================================================================= *)
(** ** Login *)

(** The successful run of the token step: both tokens are signed from the
    stored record and the refresh token is written to that record. *)
Lemma generateAccessAndRefreshToken_success (P : Platform)
    (userId : ObjectId) (now : nat) (st : Store) (u : UserDoc)
    (accessToken refreshToken : JwtString) :
  lookup userId st = Some u ->
  generateAccessToken P u now = Ok accessToken ->
  generateRefreshToken P u now = Ok refreshToken ->
  write_fails P st = false ->
  generateAccessAndRefreshToken P userId now st
  = (Ok (accessToken, refreshToken),
     update_first (has_id userId)
       (fun d => with_refreshToken d (Some refreshToken)) st).
Proof.
  intros Hlook Ha Hr Hw.
  destruct (first_match_In _ _ _ Hlook) as [_ Hid].
  apply Nat.eqb_eq in Hid.
  unfold generateAccessAndRefreshToken, try_catch, bind, findById, lift, ret.
  rewrite Hlook. cbn [option_map]. unfold loaded at 1 2. cbn [d_doc].
  rewrite Ha, Hr.
  unfold save, bind, lift, pre_save, assign_refreshToken, loaded, isModified.
  simpl. rewrite Hw, Hid, Hlook. reflexivity.
Qed.




(** C1.  Whenever login succeeds, the [user] of the response body is the
    record exactly as the lookup loaded it from the store, and that record
    carries its password digest: the body is not the projection without
    [password] and [refreshToken] that registration returns. *)
Theorem loginUser_response_carries_password_hash :
  forall (P : Platform) (req : Request) (now : nat) (st : Store)
         (resp : Response) (st' : Store),
    loginUser P req now st = (Ok resp, st') ->
    exists u digest accessToken refreshToken,
      In u st
      /\ password u = Some digest
      /\ ar_data (json resp) = DataLogin u accessToken refreshToken.
Proof.
  intros P req now st resp st'.
  unfold loginUser, bind, throw, ret, lift, findOne_UserName_or_Email.
  destruct (negb _ && negb _)%bool; [discriminate|].
  destruct (match b_password (body req) with
            | Some s => String.eqb s ""
            | None => false
            end); [discriminate|].
  destruct (first_match _ st) as [u|] eqn:Efind; [|discriminate].
  destruct (first_match_In _ _ _ Efind) as [Hin _].
  unfold isPasswordCorrect.
  destruct (b_password (body req)) as [plain|]; [|discriminate].
  destruct (password u) as [digest|] eqn:Edigest; [|discriminate].
  destruct (bcrypt_compare P plain digest); cbn [negb]; [|discriminate].
  destruct (generateAccessAndRefreshToken P (_id u) now st)
    as [[[a r]|e] s]; [|discriminate].
  cbn [fst snd].
  destruct (negb _ || negb _)%bool; [discriminate|].
  intros [= <- _]. cbn [json ar_data].
  exists u, digest, a, r. rewrite <- Edigest. auto.
Qed.

Lemma loginUser_response_carries_password_hash_witness :
  exists resp st',
    loginUser Scenario.platform Scenario.login_jane Scenario.clock
      Scenario.store1 = (Ok resp, st')
    /\ exists u digest accessToken refreshToken,
         In u Scenario.store1
         /\ password u = Some digest
         /\ ar_data (json resp) = DataLogin u accessToken refreshToken.
Proof.
  do 2 eexists.
  assert (H : forall x : Result Response * Store,
             x = loginUser Scenario.platform Scenario.login_jane
                   Scenario.clock Scenario.store1 ->
             loginUser Scenario.platform Scenario.login_jane
               Scenario.clock Scenario.store1 = x) by (intros; now subst).
  split.
  - apply H. vm_compute. reflexivity.
  - eapply loginUser_response_carries_password_hash.
    apply H. vm_compute. reflexivity.
Defined.

(** The digest the scenario's login sends back. *)
Example login_jane_body_password :
  match fst (loginUser Scenario.platform Scenario.login_jane Scenario.clock
               Scenario.store1) with
  | Ok resp =>
    match ar_data (json resp) with
    | DataLogin user _ _ => password user = Some "$2b$11$secret123"
    | _ => False
    end
  | Throw _ => False
  end.
Proof. vm_compute. reflexivity. Qed.

(* ================================================================= *)
(** ** The access verifier and logout *)

Section Verifier.
Variable P : Platform.

(** Every failure of the verification is reported as [ApiError 400]
    wrapping the cause; the store is not consulted. *)
Lemma verifyJWT_rejects (req : Request) (now : nat) (st : Store)
    (e : Exn) :
  jwt_verify P (or_else (cookies_accessToken req) (authorization_token req))
    (ACCESS_TOKEN_SECRET P) now = Throw e ->
  verifyJWT P req now st = (Throw (ApiError 400 (Cause e)), st).
Proof.
  intros H. unfold verifyJWT, try_catch, bind, lift, throw. now rewrite H.
Qed.

(** A credential that verifies is all it takes: control passes on with
    the model object attached. *)
Lemma verifyJWT_accepts (req : Request) (now : nat) (st : Store)
    (claims : Payload) :
  jwt_verify P (or_else (cookies_accessToken req) (authorization_token req))
    (ACCESS_TOKEN_SECRET P) now = Ok claims ->
  verifyJWT P req now st = (Ok (set_req_user req UserModel), st).
Proof.
  intros H. unfold verifyJWT, try_catch, bind, lift, ret. now rewrite H.
Qed.

(** No credential at all. *)
Lemma verifyJWT_no_credential (req : Request) (now : nat) (st : Store) :
  cookies_accessToken req = None ->
  authorization_token req = None ->
  verifyJWT P req now st
  = (Throw (ApiError 400 (Cause (JsonWebTokenError "jwt must be provided"))),
     st).
Proof.
  intros Hc Ha. apply verifyJWT_rejects. now rewrite Hc, Ha.
Qed.

(** A credential that is not a compact token: the library's "jwt
    malformed" unless the string has three pieces, "invalid token" if it
    has. *)
Lemma verifyJWT_malformed (req : Request) (now : nat) (st : Store)
    (raw : string) :
  cookies_accessToken req = Some (Malformed raw) ->
  JsString.truthy raw = true ->
  verifyJWT P req now st
  = (Throw (ApiError 400
              (Cause (JsonWebTokenError
                        (if Nat.eqb (split_dot_length raw) 3
                         then "invalid token" else "jwt malformed")))),
     st).
Proof.
  intros Hc Hraw. apply verifyJWT_rejects.
  rewrite Hc. unfold or_else, jwt_truthy. rewrite Hraw.
  unfold jwt_verify. rewrite Hraw.
  now destruct (Nat.eqb (split_dot_length raw) 3).
Qed.

(** A token whose tag the access secret does not yield, and a correctly
    signed token past its expiry. *)
Lemma verifyJWT_bad_signature_or_expired (req : Request) (now : nat)
    (st : Store) (t : Token) (key : string) :
  cookies_accessToken req = Some (Compact t) ->
  ACCESS_TOKEN_SECRET P = Some key ->
  (tk_signature t <> hmac P key (tk_payload t) (tk_iat t) (tk_exp t) ->
   verifyJWT P req now st
   = (Throw (ApiError 400 (Cause (JsonWebTokenError "invalid signature"))),
      st))
  /\ (tk_signature t = hmac P key (tk_payload t) (tk_iat t) (tk_exp t) ->
      tk_exp t <= now ->
      verifyJWT P req now st
      = (Throw (ApiError 400 (Cause TokenExpiredError)), st)).
Proof.
  intros Hc Hkey. split.
  - intros Hsig. apply verifyJWT_rejects. rewrite Hc, Hkey.
    now apply jwt_verify_bad_signature.
  - intros Hsig Hexp. apply verifyJWT_rejects. rewrite Hc, Hkey.
    unfold or_else, jwt_truthy, jwt_verify.
    rewrite Hsig, String.eqb_refl.
    apply Nat.leb_le in Hexp. now rewrite Hexp.
Qed.

Lemma update_first_no_match (f : UserDoc -> bool) (g : UserDoc -> UserDoc)
    (st : Store) :
  (forall d, f d = false) -> update_first f g st = st.
Proof.
  intros Hf. induction st as [|d rest IH]; simpl; [reflexivity|].
  now rewrite Hf, IH.
Qed.

(** With a record attached, [logoutUser] does unset the refresh token of
    that record. *)
Lemma logoutUser_clears_attached_record (req : Request) (st : Store)
    (attached u : UserDoc) :
  req_user req = Some (UserRecord attached) ->
  lookup (_id attached) st = Some u ->
  write_fails P st = false ->
  exists resp st',
    logoutUser P req st = (Ok resp, st')
    /\ cookies_cleared resp = ["accessToken"; "refreshToken"]
    /\ lookup (_id attached) st' = Some (with_refreshToken u None).
Proof.
  intros Hreq Hlook Hw.
  unfold logoutUser, bind, ret, findByIdAndUpdate_unset_refreshToken.
  rewrite Hreq, Hw. cbn [attached_id].
  do 2 eexists. split; [reflexivity|]. split; [reflexivity|].
  unfold id_clause.
  now apply (lookup_update_first_same
               (fun d => with_refreshToken d None) (_id attached)).
Qed.

End Verifier.

(** C2.  For a credential that verifies, the access verifier passes
    control on with the imported model object in [req.user], whatever the
    store holds, the lookup by the token's identifier never being run: a
    token of an identity that does not exist is accepted, and for an
    identity that exists its record (without password and refresh token) is
    not what gets attached. *)
Theorem verifyJWT_attaches_model_without_lookup :
  forall (P : Platform) (req : Request) (now : nat) (st : Store)
         (claims : Payload),
    jwt_verify P (or_else (cookies_accessToken req) (authorization_token req))
      (ACCESS_TOKEN_SECRET P) now = Ok claims ->
    verifyJWT P req now st = (Ok (set_req_user req UserModel), st)
    /\ (lookup (p_id claims) st = None ->
        exists req', fst (verifyJWT P req now st) = Ok req')
    /\ (forall u,
          lookup (p_id claims) st = Some u ->
          fst (verifyJWT P req now st)
          <> Ok (set_req_user req (UserRecord (select_without_secrets u)))).
Proof.
  intros P req now st claims H.
  pose proof (verifyJWT_accepts P req now st claims H) as Hacc.
  rewrite Hacc. cbn [fst].
  split; [reflexivity|]. split.
  - intros _. eexists. reflexivity.
  - intros u _ [=].
Qed.

Lemma verifyJWT_attaches_model_without_lookup_witness :
  lookup 99 Scenario.store1 = None
  /\ verifyJWT Scenario.platform
       (Scenario.with_cookie (Scenario.token_for Scenario.ghost 995))
       Scenario.clock Scenario.store1
     = (Ok (set_req_user
              (Scenario.with_cookie (Scenario.token_for Scenario.ghost 995))
              UserModel),
        Scenario.store1).
Proof.
  split; [reflexivity|].
  apply (verifyJWT_attaches_model_without_lookup Scenario.platform
           (Scenario.with_cookie (Scenario.token_for Scenario.ghost 995))
           Scenario.clock Scenario.store1
           (mkPayload 99 (Some "ghost@x.com") (Some "ghost") (Some "Ghost"))).
  reflexivity.
Defined.

(** C3.  On the logout route, a request whose access token verifies for
    the identity [p_id claims] leaves the record of that identity as it was
    -- refresh token included -- whenever that record is not the first of
    the store; the route nevertheless answers 200 and clears both cookies
    when the store accepts the write. *)
Theorem logout_route_leaves_refresh_token :
  forall (P : Platform) (req : Request) (now : nat)
         (first : UserDoc) (rest : Store) (claims : Payload) (u : UserDoc),
    jwt_verify P (or_else (cookies_accessToken req) (authorization_token req))
      (ACCESS_TOKEN_SECRET P) now = Ok claims ->
    lookup (p_id claims) (first :: rest) = Some u ->
    _id first <> p_id claims ->
    lookup (p_id claims) (snd (logout_route P req now (first :: rest)))
    = Some u
    /\ (write_fails P (first :: rest) = false ->
        fst (logout_route P req now (first :: rest))
        = Ok {| status := 200;
                cookies_set := [];
                cookies_cleared := ["accessToken"; "refreshToken"];
                json := mkApiResponse 200 DataEmpty
                          "user logged out successfully" |}).
Proof.
  intros P req now first rest claims u Hverify Hlook Hfirst.
  unfold logout_route, bind.
  rewrite (verifyJWT_accepts P req now (first :: rest) claims Hverify).
  unfold logoutUser, bind, ret, findByIdAndUpdate_unset_refreshToken.
  cbn [set_req_user req_user attached_id id_clause].
  destruct (write_fails P (first :: rest)) eqn:Hw; cbn [fst snd].
  - split; [exact Hlook | discriminate].
  - split; [|reflexivity].
    rewrite lookup_update_first_other; [exact Hlook | reflexivity |].
    change (id_clause P None) with (fun _ : UserDoc => undefined_matches_all P).
    cbn [first_match find].
    destruct (undefined_matches_all P).
    + now intros d [= <-].
    + intros d Hd. destruct (find_some _ _ Hd) as [_ Hd']. discriminate.
Qed.

Lemma logout_route_leaves_refresh_token_witness :
  refreshToken Scenario.bob
  = Some (Scenario.refresh_for Scenario.bob_logged_out 990)
  /\ lookup 2
       (snd (logout_route Scenario.platform
               (Scenario.with_cookie (Scenario.token_for Scenario.bob 995))
               Scenario.clock Scenario.store2))
     = Some Scenario.bob.
Proof.
  split; [reflexivity|].
  apply (proj1 (logout_route_leaves_refresh_token Scenario.platform
                  (Scenario.with_cookie (Scenario.token_for Scenario.bob 995))
                  Scenario.clock Scenario.jane [Scenario.bob]
                  (mkPayload 2 (Some "bob@x.com") (Some "bob") (Some "Bob"))
                  Scenario.bob eq_refl eq_refl
                  (fun H => ltac:(discriminate H)))).
Defined.

(* ================================================================= *)
(** ** Registration *)

Section Registration.
Variable P : Platform.

(** A required field that is present but blank once trimmed is refused
    with status 400 before anything else happens. *)
Lemma registerUser_blank_field_rejected (req : Request) (st : Store) :
  existsb trims_to_empty
    [b_fullName (body req); b_Email (body req);
     b_UserName (body req); b_password (body req)] = true ->
  registerUser P req st
  = (Throw (ApiError 400 (Text "all fields are required")), st).
Proof. intros H. unfold registerUser. now rewrite H. Qed.

Lemma required_failures_of_missing (f : Fields) :
  f_fullName f = None \/ f_Email f = None \/ f_password f = None ->
  required_failures (cast_fields P f) <> [].
Proof.
  unfold required_failures, cast_fields; cbn.
  intros [H | [H | H]]; rewrite H; cbn;
    repeat match goal with
           | |- context [if ?c then _ else _] => destruct c
           end; cbn; discriminate.
Qed.

(** No registration with a required field absent or blank creates, or
    changes, a record. *)
Lemma registerUser_missing_or_blank_stores_nothing (req : Request)
    (st : Store) :
  existsb missing_or_blank
    [b_fullName (body req); b_Email (body req);
     b_UserName (body req); b_password (body req)] = true ->
  snd (registerUser P req st) = st.
Proof.
  intros Hmiss. unfold registerUser.
  destruct (existsb trims_to_empty _) eqn:Eblank; [reflexivity|].
  unfold bind, findOne_UserName_or_Email, throw.
  destruct (defined _); [reflexivity|].
  destruct (negb _); [reflexivity|].
  destruct (UploadOnCloudinary P (files_avatar_path req)); [|reflexivity].
  destruct (b_UserName (body req)) as [uname|] eqn:Euname; [|reflexivity].
  unfold create.
  destruct (required_failures _) eqn:Ereq; [|reflexivity].
  exfalso. revert Ereq. apply required_failures_of_missing. cbn.
  cbn in Hmiss, Eblank.
  destruct (b_fullName (body req)) as [x|]; [|now left].
  destruct (b_Email (body req)) as [y|]; [|now right; left].
  destruct (b_password (body req)) as [z|]; [|now right; right].
  cbn in Hmiss, Eblank. rewrite Eblank in Hmiss. discriminate.
Qed.

End Registration.

(** C4.  A registration whose [UserName] field is absent, the other
    fields being filled in, no record matching and the avatar uploaded,
    passes the blank-field check and ends in a [TypeError] raised by
    [UserName.toLowerCase()], not in an [ApiError 400]; the store is
    unchanged. *)
Theorem registerUser_missing_UserName_not_rejected :
  forall (P : Platform) (req : Request) (st : Store) (url : string),
    b_UserName (body req) = None ->
    existsb trims_to_empty
      [b_fullName (body req); b_Email (body req); b_password (body req)]
    = false ->
    fst (findOne_UserName_or_Email P None (b_Email (body req)) st) = Ok None ->
    JsString.truthy_opt (files_avatar_path req) = true ->
    UploadOnCloudinary P (files_avatar_path req) = Some url ->
    registerUser P req st
    = (Throw (TypeError
                "Cannot read properties of undefined (reading 'toLowerCase')"),
       st).
Proof.
  intros P req st url Huname Hblank Hfind Havatar Hupload.
  unfold registerUser. rewrite Huname.
  cbn in Hblank |- *.
  apply orb_false_elim in Hblank as [Hb1 Hblank].
  apply orb_false_elim in Hblank as [Hb2 Hblank].
  rewrite Hb1, Hb2, Hblank. cbn.
  unfold findOne_UserName_or_Email in Hfind |- *. cbn [fst] in Hfind.
  injection Hfind as Hfind.
  unfold bind. rewrite Hfind. cbn [defined].
  rewrite Havatar, Hupload. reflexivity.
Qed.

Lemma registerUser_missing_UserName_not_rejected_witness :
  registerUser Scenario.platform Scenario.register_without_UserName []
  = (Throw (TypeError
              "Cannot read properties of undefined (reading 'toLowerCase')"),
     []).
Proof.
  apply (registerUser_missing_UserName_not_rejected Scenario.platform
           Scenario.register_without_UserName [] "public/temp/a.png");
    reflexivity.
Defined.

(** C5 as stated fails: a registration that takes the handle of a stored
    record but has a blank password is refused with status 400, the
    blank-field check coming first, not with 409. *)
Lemma register_duplicate_with_blank_field_is_400 :
  duplicates Scenario.platform Scenario.register_taken_blank_password
    Scenario.store1
  /\ registerUser Scenario.platform Scenario.register_taken_blank_password
       Scenario.store1
     = (Throw (ApiError 400 (Text "all fields are required")), Scenario.store1)
  /\ fst (registerUser Scenario.platform
            Scenario.register_taken_blank_password Scenario.store1)
     <> Throw (ApiError 409 (Text "UserName or Email already exists")).
Proof.
  split; [|split].
  - exists Scenario.jane. split; [now left|].
    left. exists "JaneDoe". split; reflexivity.
  - reflexivity.
  - discriminate.
Qed.

(** The blank check sees Unicode white space: a password that is one
    no-break space is refused like an empty one, and trimming removes the
    spaces of any script from both ends. *)
Example register_nbsp_password_is_400 :
  JsString.trim Cases.padded_jane = "Jane"
  /\ registerUser Scenario.platform Cases.register_nbsp_password []
     = (Throw (ApiError 400 (Text "all fields are required")), []).
Proof. split; vm_compute; reflexivity. Qed.

(** C5, amended.  A registration in which no supplied required field is
    blank after trimming, and whose handle or email -- trimmed and
    lower-cased by the runtime, as the schema stores them -- is that of a
    stored record, is refused with [ApiError 409] and the store is left as
    it was. *)
Theorem registerUser_duplicate_conflict :
  forall (P : Platform) (req : Request) (st : Store),
    existsb trims_to_empty
      [b_fullName (body req); b_Email (body req);
       b_UserName (body req); b_password (body req)] = false ->
    duplicates P req st ->
    registerUser P req st
    = (Throw (ApiError 409 (Text "UserName or Email already exists")), st).
Proof.
  intros P req st Hblank (d & Hin & Hdup).
  unfold registerUser. rewrite Hblank.
  unfold bind, findOne_UserName_or_Email.
  destruct (first_match_exists
              (fun d => (eq_clause P UserName (set_lowercase_trim P)
                           (b_UserName (body req)) d
                         || eq_clause P Email (set_lowercase_trim P)
                              (b_Email (body req)) d)%bool)
              st d Hin) as [d' Hd'].
  - destruct Hdup as [(h & Hh & Heq) | (e & He & Heq)].
    + rewrite Hh. cbn [eq_clause]. rewrite Heq, String.eqb_refl. reflexivity.
    + rewrite He. cbn [eq_clause]. rewrite Heq, String.eqb_refl.
      apply orb_true_r.
  - rewrite Hd'. reflexivity.
Qed.

Lemma registerUser_duplicate_conflict_witness :
  registerUser Scenario.platform Scenario.register_taken Scenario.store1
  = (Throw (ApiError 409 (Text "UserName or Email already exists")),
     Scenario.store1).
Proof.
  apply (registerUser_duplicate_conflict Scenario.platform
           Scenario.register_taken Scenario.store1).
  - reflexivity.
  - exists Scenario.jane. split; [left; reflexivity|].
    left. exists " JaneDoe ". split; reflexivity.
Defined.

(* ================================================================= *)
(** ** The password digest *)

Section PasswordDigest.
Variable P : Platform.

(** The contract of the hashing library for the one cost the hook uses. *)
Hypothesis bcrypt_compare_hash :
  forall plain, bcrypt_compare P plain (bcrypt_hash P plain 11) = true.

(** The digest the hook stores is one [isPasswordCorrect] accepts for the
    plaintext it was computed from. *)
Lemma isPasswordCorrect_after_pre_save (D : Document) (plain : string) :
  isModified Ppassword D = true ->
  password (d_doc D) = Some plain ->
  exists D' n,
    pre_save P D = Ok (D', n)
    /\ isPasswordCorrect P (d_doc D') (Some plain) = Ok true.
Proof.
  intros Hmod Hpw. unfold pre_save. rewrite Hmod, Hpw.
  do 2 eexists. split; [reflexivity|].
  unfold isPasswordCorrect. cbn. now rewrite bcrypt_compare_hash.
Qed.

End PasswordDigest.

(* ================================================================= *)
(** ** Identifiers stay unique *)

Section UniqueIds.
Variable P : Platform.

Lemma ids_update_first (f : UserDoc -> bool) (g : UserDoc -> UserDoc)
    (st : Store) :
  (forall d, _id (g d) = _id d) ->
  map _id (update_first f g st) = map _id st.
Proof.
  intros Hg. induction st as [|d rest IH]; simpl; [reflexivity|].
  destruct (f d); simpl; [now rewrite Hg | now rewrite IH].
Qed.

Lemma fresh_id_above (st : Store) (id : ObjectId) :
  In id (map _id st) -> id < fresh_id st.
Proof.
  unfold fresh_id. induction st as [|d rest IH]; simpl; [contradiction|].
  intros [<- | Hin]; [lia|]. specialize (IH Hin). lia.
Qed.

Lemma save_keeps_unique_ids (D : Document) (st : Store) :
  (d_isNew D = true -> _id (d_doc D) = fresh_id st) ->
  NoDup (map _id st) ->
  NoDup (map _id (snd (save P D st))).
Proof.
  intros Hfresh Hnd. unfold save, bind, lift.
  destruct (pre_save P D) as [[D1 n]|e] eqn:Epre; [|exact Hnd].
  assert (HD1 : d_isNew D1 = d_isNew D /\ _id (d_doc D1) = _id (d_doc D)).
  { unfold pre_save in Epre. destruct (isModified Ppassword D).
    - destruct (password (d_doc D)); [|discriminate].
      injection Epre as <- _. split; reflexivity.
    - injection Epre as <- _. split; reflexivity. }
  destruct HD1 as [Hnew Hid]. cbn [fst].
  destruct (d_isNew D1) eqn:E1.
  - destruct (write_fails P st); [exact Hnd|].
    destruct (violates_unique _ st); [exact Hnd|].
    cbn [snd]. rewrite map_app. cbn [map].
    apply NoDup_app; [exact Hnd | repeat constructor; intros [] |].
    intros x Hx [<- | []].
    pose proof (fresh_id_above st _ Hx) as Hlt.
    rewrite Hid, (Hfresh (eq_sym Hnew)) in Hlt. lia.
  - destruct (d_modified D1); [destruct (lookup _ st); exact Hnd|].
    destruct (write_fails P st); [exact Hnd|].
    destruct (lookup _ st); [|exact Hnd].
    cbn [snd]. rewrite ids_update_first; [exact Hnd|].
    intros d. apply copy_paths_id.
Qed.

Lemma registerUser_keeps_unique_ids (req : Request) (st : Store) :
  NoDup (map _id st) -> NoDup (map _id (snd (registerUser P req st))).
Proof.
  intros Hnd. unfold registerUser.
  destruct (existsb trims_to_empty _); [exact Hnd|].
  unfold bind, findOne_UserName_or_Email, throw.
  destruct (defined _); [exact Hnd|].
  destruct (negb _); [exact Hnd|].
  destruct (UploadOnCloudinary P (files_avatar_path req)); [|exact Hnd].
  destruct (b_UserName (body req)) as [uname|]; [|exact Hnd].
  unfold create.
  destruct (required_failures _); [|exact Hnd].
  match goal with
  | |- context [save P ?D st] =>
    pose proof (save_keeps_unique_ids D st (fun _ => eq_refl) Hnd) as Hs;
    destruct (save P D st) as [[D'|e] sx]
  end; [|exact Hs].
  unfold findById_select. cbn [snd] in Hs |- *.
  destruct (option_map _ _); exact Hs.
Qed.

Lemma loginUser_keeps_unique_ids (req : Request) (now : nat) (st : Store) :
  NoDup (map _id st) -> NoDup (map _id (snd (loginUser P req now st))).
Proof.
  intros Hnd.
  unfold loginUser, bind, throw, ret, lift, findOne_UserName_or_Email.
  destruct (negb _ && negb _)%bool; [exact Hnd|].
  destruct (match b_password (body req) with
            | Some s => String.eqb s ""
            | None => false
            end); [exact Hnd|].
  destruct (first_match _ st) as [u|]; [|exact Hnd].
  destruct (isPasswordCorrect P u (b_password (body req))) as [[|]|];
    cbn [negb]; try exact Hnd.
  assert (Hgen : NoDup (map _id
                   (snd (generateAccessAndRefreshToken P (_id u) now st)))).
  { unfold generateAccessAndRefreshToken, try_catch, bind, findById, lift,
      throw, ret.
    destruct (lookup (_id u) st) as [v|]; cbn [option_map]; [|exact Hnd].
    destruct (generateAccessToken P (d_doc (loaded v)) now) as [a|];
      [|exact Hnd].
    destruct (generateRefreshToken P (d_doc (loaded v)) now) as [r|];
      [|exact Hnd].
    pose proof (save_keeps_unique_ids (assign_refreshToken (loaded v) r) st
                  (fun H => ltac:(discriminate H)) Hnd) as Hs.
    destruct (save P (assign_refreshToken (loaded v) r) st) as [[D|e] sx];
      exact Hs. }
  destruct (generateAccessAndRefreshToken P (_id u) now st) as [[t|e] sx];
    [|exact Hgen].
  destruct (negb _ || negb _)%bool; exact Hgen.
Qed.

Lemma logout_route_keeps_unique_ids (req : Request) (now : nat)
    (st : Store) :
  NoDup (map _id st) -> NoDup (map _id (snd (logout_route P req now st))).
Proof.
  intros Hnd. unfold logout_route, bind.
  pose proof (verifyJWT_store P req now st) as Hv.
  destruct (verifyJWT P req now st) as [[req'|e] sx]; cbn [snd] in Hv;
    subst sx; [|exact Hnd].
  unfold logoutUser, bind, throw, ret, findByIdAndUpdate_unset_refreshToken.
  destruct (req_user req'); [|exact Hnd].
  destruct (write_fails P st); [exact Hnd|].
  cbn [snd]. now rewrite ids_update_first.
Qed.

End UniqueIds.

(* ================================================================= *)
(** ** The scenarios of the specification, run *)

(** Registering Jane on an empty store: 201, the handle as stored, no
    password and no refresh token in the body; the digest is stored. *)
Example register_jane_created :
  registerUser Scenario.platform Scenario.register_jane []
  = (Ok {| status := 201;
           cookies_set := [];
           cookies_cleared := [];
           json := mkApiResponse 200
                     (DataUser (select_without_secrets Scenario.jane))
                     "user registered succesfully" |},
     [Scenario.jane]).
Proof. vm_compute. reflexivity. Qed.

(** A second registration with the same handle: 409. *)
Example register_jane_twice :
  fst (registerUser Scenario.platform Scenario.register_jane Scenario.store1)
  = Throw (ApiError 409 (Text "UserName or Email already exists")).
Proof. vm_compute. reflexivity. Qed.

(** Logout when the mapper drops undefined filter values: the first record
    of the collection loses its refresh token, whoever asked. *)
Example logout_bob_clears_first_record :
  snd (logout_route Scenario.platform_dropping
         (Scenario.with_cookie (Scenario.token_for Scenario.bob 995))
         Scenario.clock [Scenario.bob; Scenario.bob_logged_out])
  = [Scenario.bob_logged_out; Scenario.bob_logged_out].
Proof. vm_compute. reflexivity. Qed.

(* ================================================================= *)
(** * Further properties of the handlers *)

(** ** The schema's setters on strings *)

Section Setters.
Variable P : Platform.

Lemma not_blank_truthy (s : string) :
  String.eqb (JsString.trim s) "" = false -> JsString.truthy s = true.
Proof.
  intros H. unfold JsString.truthy.
  destruct (String.eqb_spec s "") as [->|]; [discriminate | reflexivity].
Qed.

(** A value that is not blank is still there after the setter, the
    runtime's lower-casing giving the empty string for the empty string
    only. *)
Lemma set_lowercase_trim_truthy (s : string) :
  (forall x, toLowerCase P x = "" -> x = "") ->
  String.eqb (JsString.trim s) "" = false ->
  JsString.truthy (set_lowercase_trim P s) = true.
Proof.
  intros Hlow H. unfold JsString.truthy, set_lowercase_trim.
  destruct (String.eqb_spec (toLowerCase P (JsString.trim s)) "")
    as [E|E]; [|reflexivity].
  apply Hlow in E. rewrite E in H. discriminate.
Qed.

End Setters.

(** The stand-in of the scenarios gives the empty string for the empty
    string only. *)
Lemma ascii_toLowerCase_empty (x : string) :
  Scenario.ascii_toLowerCase x = "" -> x = "".
Proof. destruct x; [reflexivity | discriminate]. Qed.

(* ================================================================= *)
(** ** What each handler can do to the store *)

Section HandlerShapes.
Variable P : Platform.

Lemma find_app_none (f : UserDoc -> bool) (st l : Store) :
  find f st = None -> find f (st ++ l)%list = find f l.
Proof.
  induction st as [|x rest IH]; simpl; [reflexivity|].
  destruct (f x); [discriminate | exact IH].
Qed.

Lemma lookup_fresh_id (st : Store) : lookup (fresh_id st) st = None.
Proof.
  unfold lookup, first_match.
  destruct (find (has_id (fresh_id st)) st) as [d|] eqn:E; [|reflexivity].
  destruct (find_some _ _ E) as [Hin Hid]. apply Nat.eqb_eq in Hid.
  pose proof (fresh_id_above st (_id d) (in_map _id st d Hin)). lia.
Qed.

Lemma lookup_appended (st : Store) (d : UserDoc) :
  _id d = fresh_id st -> lookup (fresh_id st) (st ++ [d])%list = Some d.
Proof.
  intros Hid. unfold lookup, first_match.
  rewrite find_app_none by apply lookup_fresh_id.
  simpl. unfold has_id. now rewrite Hid, Nat.eqb_refl.
Qed.

Lemma required_failures_nil (f : Fields) :
  required_failures f = [] ->
  JsString.truthy_opt (f_UserName f) = true
  /\ JsString.truthy_opt (f_Email f) = true
  /\ JsString.truthy_opt (f_fullName f) = true
  /\ JsString.truthy_opt (f_avatar f) = true
  /\ JsString.truthy_opt (f_password f) = true.
Proof.
  unfold required_failures.
  destruct (JsString.truthy_opt (f_UserName f)); [|discriminate].
  destruct (JsString.truthy_opt (f_Email f)); [|discriminate].
  destruct (JsString.truthy_opt (f_fullName f)); [|discriminate].
  destruct (JsString.truthy_opt (f_avatar f)); [|discriminate].
  destruct (JsString.truthy_opt (f_password f)); [|discriminate].
  intros _. repeat split.
Qed.

Lemma new_document_password_modified (id : ObjectId) (f : Fields)
    (plain : string) :
  f_password f = Some plain ->
  isModified Ppassword (new_document id f) = true.
Proof.
  intros H. unfold isModified, new_document, set_paths; cbn [d_modified].
  rewrite H.
  destruct (defined (f_fullName f)), (defined (f_avatar f)),
    (defined (f_coverImage f)), (defined (f_Email f)),
    (defined (f_UserName f)); reflexivity.
Qed.

(** [create] either throws and stores nothing, or appends one record: the
    cast fields under a fresh identifier, the password replaced by its
    digest, no refresh token, no record with that handle or email before. *)
Lemma create_inv (f : Fields) (st : Store) :
  match create P f st with
  | (Throw e, st') =>
    st' = st
    /\ (forall code m, e <> ApiError code m)
    /\ (forall m, e <> TypeError m)
  | (Ok D, st') =>
    exists plain,
      f_password f = Some plain
      /\ required_failures (cast_fields P f) = []
      /\ write_fails P st = false
      /\ violates_unique (d_doc D) st = false
      /\ d_doc D = with_password
                     (d_doc (new_document (fresh_id st) (cast_fields P f)))
                     (Some (bcrypt_hash P plain 11))
      /\ st' = (st ++ [d_doc D])%list
  end.
Proof.
  unfold create.
  destruct (required_failures (cast_fields P f)) eqn:Ereq;
    [|repeat split; discriminate].
  destruct (required_failures_nil _ Ereq) as (_ & _ & _ & _ & Hpw).
  cbn [cast_fields f_password] in Hpw.
  destruct (f_password f) as [plain|] eqn:Epw; [|discriminate].
  unfold save, bind, lift, pre_save.
  rewrite (new_document_password_modified (fresh_id st) (cast_fields P f) plain)
    by (cbn; exact Epw).
  cbn [new_document d_doc password cast_fields f_password].
  rewrite Epw. cbn [fst assign_password d_isNew new_document].
  destruct (write_fails P st); [repeat split; discriminate|].
  destruct (violates_unique _ st) eqn:Euniq;
    [repeat split; discriminate|].
  exists plain. repeat split; assumption.
Qed.

Lemma jwt_sign_truthy (pl : Payload) (secret : option string)
    (ttl : option nat) (now : nat) (j : JwtString) :
  jwt_sign P pl secret ttl now = Ok j -> jwt_truthy j = true.
Proof.
  unfold jwt_sign. destruct secret; [|discriminate].
  destruct ttl; [|discriminate]. now intros [= <-].
Qed.

(** The token step either throws [problem_is_here] and stores nothing, or
    signs both tokens from the stored record and writes the refresh token
    to it. *)
Lemma generateAccessAndRefreshToken_inv (userId : ObjectId) (now : nat)
    (st : Store) :
  match generateAccessAndRefreshToken P userId now st with
  | (Throw e, st') => e = problem_is_here /\ st' = st
  | (Ok (a, r), st') =>
    exists v,
      lookup userId st = Some v
      /\ generateAccessToken P v now = Ok a
      /\ generateRefreshToken P v now = Ok r
      /\ write_fails P st = false
      /\ st' = update_first (has_id userId)
                 (fun d => with_refreshToken d (Some r)) st
  end.
Proof.
  destruct (lookup userId st) as [v|] eqn:Elook.
  - destruct (generateAccessToken P v now) as [a|ea] eqn:Ea.
    + destruct (generateRefreshToken P v now) as [r|er] eqn:Er.
      * destruct (write_fails P st) eqn:Ew.
        -- unfold generateAccessAndRefreshToken, try_catch, bind, findById,
             lift, throw, ret.
           rewrite Elook. cbn [option_map]. unfold loaded at 1 2.
           cbn [d_doc]. rewrite Ea, Er.
           unfold save, bind, lift, pre_save, assign_refreshToken, loaded,
             isModified. simpl. rewrite Ew. now split.
        -- rewrite (generateAccessAndRefreshToken_success P userId now st v
                      a r Elook Ea Er Ew).
           exists v. repeat split; assumption.
      * unfold generateAccessAndRefreshToken, try_catch, bind, findById,
          lift, throw, ret.
        rewrite Elook. cbn [option_map]. unfold loaded at 1 2.
        cbn [d_doc]. rewrite Ea, Er. now split.
    + unfold generateAccessAndRefreshToken, try_catch, bind, findById,
        lift, throw, ret.
      rewrite Elook. cbn [option_map]. unfold loaded at 1.
      cbn [d_doc]. rewrite Ea. now split.
  - unfold generateAccessAndRefreshToken, try_catch, bind, findById,
      lift, throw, ret.
    rewrite Elook. now split.
Qed.

(** [loginUser] either throws one of [login_errors] and stores nothing, or
    answers with the resolved record and the two tokens signed from the
    stored record of that identifier, whose refresh token it has set. *)
Lemma loginUser_inv (req : Request) (now : nat) (st : Store) :
  match loginUser P req now st with
  | (Throw e, st') => In e login_errors /\ st' = st
  | (Ok resp, st') =>
    exists u v a r,
      fst (findOne_UserName_or_Email P (b_UserName (body req))
             (b_Email (body req)) st) = Ok (Some u)
      /\ lookup (_id u) st = Some v
      /\ generateAccessToken P v now = Ok a
      /\ generateRefreshToken P v now = Ok r
      /\ resp = {| status := 200;
                   cookies_set := [("accessToken", a); ("refreshToken", r)];
                   cookies_cleared := [];
                   json := mkApiResponse 200 (DataLogin u a r)
                             "User Logged in succesfully" |}
      /\ st' = update_first (has_id (_id u))
                 (fun d => with_refreshToken d (Some r)) st
  end.
Proof.
  unfold loginUser, bind, throw, ret, lift, findOne_UserName_or_Email,
    login_errors.
  destruct (negb _ && negb _)%bool; [split; [simpl; tauto | reflexivity]|].
  destruct (match b_password (body req) with
            | Some s => String.eqb s ""
            | None => false
            end); [split; [simpl; tauto | reflexivity]|].
  cbn [fst].
  destruct (first_match _ st) as [u|] eqn:Efind;
    [|split; [simpl; tauto | reflexivity]].
  destruct (isPasswordCorrect P u (b_password (body req))) as [[|]|e] eqn:Epw;
    cbn [negb].
  - pose proof (generateAccessAndRefreshToken_inv (_id u) now st) as Hgen.
    destruct (generateAccessAndRefreshToken P (_id u) now st)
      as [[[a r]|e] sx].
    + destruct Hgen as (v & Hv & Ha & Hr & _ & ->). cbn [fst snd].
      rewrite (jwt_sign_truthy _ _ _ _ _ Ha), (jwt_sign_truthy _ _ _ _ _ Hr).
      cbn [negb orb].
      exists u, v, a, r. repeat split; assumption.
    + destruct Hgen as [-> ->]. split; [simpl; tauto | reflexivity].
  - split; [simpl; tauto | reflexivity].
  - split; [|reflexivity].
    unfold isPasswordCorrect in Epw.
    destruct (b_password (body req)); [destruct (password u)|];
      try discriminate; injection Epw as <-; simpl; tauto.
Qed.

End HandlerShapes.

(* ================================================================= *)
(** ** Registration, end to end *)

Section RegistrationShapes.
Variable P : Platform.

Lemma find_none_existsb (f : UserDoc -> bool) (st : Store) :
  find f st = None -> existsb f st = false.
Proof.
  induction st as [|x rest IH]; simpl; [reflexivity|].
  destruct (f x); [discriminate | exact IH].
Qed.

Lemma existsb_pointwise (f g : UserDoc -> bool) (st : Store) :
  (forall d, f d = g d) -> existsb f st = existsb g st.
Proof.
  intros H. induction st as [|x rest IH]; simpl; [reflexivity|].
  now rewrite H, IH.
Qed.

Lemma violates_unique_not_in (u : UserDoc) (st : Store) :
  violates_unique u st = false ->
  ~ In (UserName u) (map UserName st) /\ ~ In (Email u) (map Email st).
Proof.
  unfold violates_unique. induction st as [|x rest IH]; simpl.
  - intros _. split; intros [].
  - intros H. apply orb_false_elim in H as [Hx Hrest].
    apply orb_false_elim in Hx as [Hn He].
    apply String.eqb_neq in Hn. apply String.eqb_neq in He.
    destruct (IH Hrest) as [IHn IHe].
    split; intros [E|E]; auto.
Qed.

(** [create] succeeds when the required fields are there, the store
    accepts the write and no record has the handle or the email. *)
Lemma create_success (f : Fields) (st : Store) (plain : string) :
  required_failures (cast_fields P f) = [] ->
  f_password f = Some plain ->
  write_fails P st = false ->
  violates_unique
    (with_password (d_doc (new_document (fresh_id st) (cast_fields P f)))
       (Some (bcrypt_hash P plain 11))) st = false ->
  create P f st
  = (Ok (after_save
           (assign_password (new_document (fresh_id st) (cast_fields P f))
              (bcrypt_hash P plain 11))),
     (st ++ [with_password
               (d_doc (new_document (fresh_id st) (cast_fields P f)))
               (Some (bcrypt_hash P plain 11))])%list).
Proof.
  intros Hreq Hpw Hw Huniq. unfold create. rewrite Hreq.
  unfold save, bind, lift, pre_save.
  rewrite (new_document_password_modified (fresh_id st) (cast_fields P f)
             plain) by (cbn; exact Hpw).
  cbn [new_document d_doc password cast_fields f_password].
  rewrite Hpw. cbn [fst assign_password d_isNew new_document].
  rewrite Hw. cbn in Huniq |- *.
  now rewrite Huniq.
Qed.

(** A complete registration of a new handle and email.  The two
    hypotheses on [toLowerCase] are facts of the runtime's lower-casing:
    it gives the empty string for the empty string only, and lower-casing
    the handle before the setter trims and lower-cases it changes
    nothing. *)
Lemma registerUser_success (req : Request) (st : Store)
    (fn em un pw url : string) :
  body req = mkBody (Some fn) (Some em) (Some un) (Some pw) ->
  existsb trims_to_empty [Some fn; Some em; Some un; Some pw] = false ->
  fst (findOne_UserName_or_Email P (Some un) (Some em) st) = Ok None ->
  JsString.truthy_opt (files_avatar_path req) = true ->
  UploadOnCloudinary P (files_avatar_path req) = Some url ->
  url <> "" ->
  write_fails P st = false ->
  (forall x, toLowerCase P x = "" -> x = "") ->
  set_lowercase_trim P (toLowerCase P un) = set_lowercase_trim P un ->
  registerUser P req st
  = (Ok {| status := 201;
           cookies_set := [];
           cookies_cleared := [];
           json := mkApiResponse 200
                     (DataUser
                        (select_without_secrets
                           (registered P (fresh_id st) fn em un pw url
                              (cover_url_of P req))))
                     "user registered succesfully" |},
     (st ++ [registered P (fresh_id st) fn em un pw url
               (cover_url_of P req)])%list).
Proof.
  intros Hbody Hblank Hfind0 Havatar Hupload Hurl Hw Hlow Hidem.
  assert (Hfind : first_match
                    (fun d => (eq_clause P UserName (set_lowercase_trim P)
                                 (Some un) d
                               || eq_clause P Email (set_lowercase_trim P)
                                    (Some em) d)%bool) st = None).
  { unfold findOne_UserName_or_Email in Hfind0. cbn [fst] in Hfind0.
    now injection Hfind0. }
  cbn [existsb trims_to_empty] in Hblank.
  apply orb_false_elim in Hblank as [Hfn Hblank].
  apply orb_false_elim in Hblank as [Hem Hblank].
  apply orb_false_elim in Hblank as [Hun Hblank].
  apply orb_false_elim in Hblank as [Hpw _].
  unfold registerUser. rewrite Hbody.
  cbn [b_fullName b_Email b_UserName b_password existsb trims_to_empty].
  rewrite Hfn, Hem, Hun, Hpw. cbn [orb].
  unfold bind at 1. unfold findOne_UserName_or_Email at 1.
  rewrite Hfind. cbn [defined]. rewrite Havatar. cbn [negb].
  rewrite Hupload.
  fold (cover_url_of P req).
  unfold bind at 1.
  rewrite (create_success _ st pw).
  - unfold bind, findById_select, ret.
    cbn [after_save assign_password d_doc new_document with_password _id].
    rewrite lookup_appended by reflexivity.
    cbn [option_map cast_fields f_UserName f_Email f_fullName f_avatar
         f_coverImage f_password or_empty].
    unfold registered. now rewrite Hidem.
  - unfold required_failures.
    cbn [cast_fields f_UserName f_Email f_fullName f_avatar f_password
         option_map JsString.truthy_opt].
    rewrite Hidem.
    rewrite (set_lowercase_trim_truthy P un Hlow Hun),
      (set_lowercase_trim_truthy P em Hlow Hem).
    unfold set_trim, JsString.truthy at 1. rewrite Hfn. cbn [negb].
    rewrite (not_blank_truthy pw Hpw).
    unfold JsString.truthy.
    destruct (String.eqb_spec url ""); [contradiction | reflexivity].
  - reflexivity.
  - exact Hw.
  - unfold violates_unique.
    cbn [new_document d_doc with_password UserName Email cast_fields
         f_UserName f_Email option_map or_empty].
    rewrite Hidem.
    rewrite <- (find_none_existsb _ st Hfind).
    apply existsb_pointwise. intros d. reflexivity.
Qed.

(** Registration stores nothing when it throws one of its own errors,
    and appends exactly one record -- fresh identifier, the digest of the
    submitted password, no refresh token, a handle and an email no record
    had -- when it answers. *)
Lemma registerUser_inv (req : Request) (st : Store) :
  match registerUser P req st with
  | (Throw e, st') =>
    st' = st
    /\ (In e register_errors
        \/ (exists m, e = TypeError m)
        \/ ((forall code m, e <> ApiError code m)
            /\ (forall m, e <> TypeError m)))
  | (Ok resp, st') =>
    exists d plain,
      st' = (st ++ [d])%list
      /\ _id d = fresh_id st
      /\ b_password (body req) = Some plain
      /\ password d = Some (bcrypt_hash P plain 11)
      /\ refreshToken d = None
      /\ violates_unique d st = false
      /\ resp = {| status := 201;
                   cookies_set := [];
                   cookies_cleared := [];
                   json := mkApiResponse 200
                             (DataUser (select_without_secrets d))
                             "user registered succesfully" |}
  end.
Proof.
  unfold registerUser, register_errors.
  destruct (existsb trims_to_empty _);
    [split; [reflexivity | left; simpl; tauto]|].
  unfold bind at 1. unfold findOne_UserName_or_Email at 1.
  destruct (defined _); [split; [reflexivity | left; simpl; tauto]|].
  destruct (negb _); [split; [reflexivity | left; simpl; tauto]|].
  destruct (UploadOnCloudinary P (files_avatar_path req)) as [url|];
    [|split; [reflexivity | left; simpl; tauto]].
  destruct (b_UserName (body req)) as [uname|];
    [|split; [reflexivity | right; left; eauto]].
  unfold bind at 1.
  match goal with
  | |- context [create P ?f st] =>
    pose proof (create_inv P f st) as Hc;
    destruct (create P f st) as [[D|e] sx]
  end.
  - destruct Hc as (plain & Hplain & _ & _ & Huniq & Hdoc & ->).
    cbn [f_password] in Hplain.
    assert (Hid : _id (d_doc D) = fresh_id st) by (rewrite Hdoc; reflexivity).
    unfold bind, findById_select, ret.
    rewrite Hid, (lookup_appended st (d_doc D) Hid). cbn [option_map].
    exists (d_doc D), plain.
    repeat split; try assumption; rewrite Hdoc; reflexivity.
  - destruct Hc as (-> & Hne & Hnt). split; [reflexivity|].
    right; right. split; assumption.
Qed.

End RegistrationShapes.

(** X1.  A registration with all four fields non-blank, a handle and an
    email no record has, and an avatar that uploads to a non-empty URL,
    answers 201.  The appended record holds the handle and email trimmed
    and lower-cased, the name trimmed, the digest of the password and no
    refresh token; the body is that record without password and refresh
    token, and the record is the one its identifier finds.  Two facts of
    the runtime's lower-casing are assumed: it gives the empty string for
    the empty string only, and lower-casing the handle before the setter
    trims and lower-cases it changes nothing. *)
Theorem registerUser_stores_digest_returns_projection :
  forall (P : Platform) (req : Request) (st : Store)
         (fn em un pw url : string),
    body req = mkBody (Some fn) (Some em) (Some un) (Some pw) ->
    existsb trims_to_empty [Some fn; Some em; Some un; Some pw] = false ->
    fst (findOne_UserName_or_Email P (Some un) (Some em) st) = Ok None ->
    JsString.truthy_opt (files_avatar_path req) = true ->
    UploadOnCloudinary P (files_avatar_path req) = Some url ->
    url <> "" ->
    write_fails P st = false ->
    (forall x, toLowerCase P x = "" -> x = "") ->
    set_lowercase_trim P (toLowerCase P un) = set_lowercase_trim P un ->
    exists created,
      registerUser P req st
      = (Ok {| status := 201;
               cookies_set := [];
               cookies_cleared := [];
               json := mkApiResponse 200
                         (DataUser (select_without_secrets created))
                         "user registered succesfully" |},
         (st ++ [created])%list)
      /\ UserName created = toLowerCase P (JsString.trim un)
      /\ Email created = toLowerCase P (JsString.trim em)
      /\ fullName created = JsString.trim fn
      /\ password created = Some (bcrypt_hash P pw 11)
      /\ refreshToken created = None
      /\ password (select_without_secrets created) = None
      /\ refreshToken (select_without_secrets created) = None
      /\ lookup (_id created) (st ++ [created])%list = Some created.
Proof.
  intros P req st fn em un pw url Hbody Hblank Hfind Havatar Hupload Hurl Hw
    Hlow Hidem.
  exists (registered P (fresh_id st) fn em un pw url (cover_url_of P req)).
  split.
  - now apply registerUser_success.
  - repeat split. cbn [registered _id]. now apply lookup_appended.
Qed.

Lemma registerUser_stores_digest_returns_projection_witness :
  exists created,
    registerUser Scenario.platform Cases.register_jane_mixed []
    = (Ok {| status := 201;
             cookies_set := [];
             cookies_cleared := [];
             json := mkApiResponse 200
                       (DataUser (select_without_secrets created))
                       "user registered succesfully" |},
       [created])
    /\ UserName created = "janedoe"
    /\ Email created = "jane@x.com"
    /\ fullName created = "Jane Doe"
    /\ password created = Some "$2b$11$secret123".
Proof.
  destruct (registerUser_stores_digest_returns_projection
              Scenario.platform Cases.register_jane_mixed []
              " Jane Doe " "Jane@X.com" " JaneDoe" "secret123"
              "http://cdn/a.png"
              eq_refl eq_refl eq_refl eq_refl eq_refl
              (fun H => ltac:(discriminate H)) eq_refl
              ascii_toLowerCase_empty eq_refl)
    as (created & Hrun & Hu & He & Hf & Hp & _).
  exists created. repeat split; assumption.
Defined.


(* ================================================================= *)
(** ** Frames and invariants of the session handlers *)

Section SessionFrames.
Variable P : Platform.

Lemma map_update_first {A : Type} (proj : UserDoc -> A)
    (f : UserDoc -> bool) (g : UserDoc -> UserDoc) (st : Store) :
  (forall d, proj (g d) = proj d) ->
  map proj (update_first f g st) = map proj st.
Proof.
  intros Hg. induction st as [|d rest IH]; simpl; [reflexivity|].
  destruct (f d); simpl; [now rewrite Hg | now rewrite IH].
Qed.

(** Whatever does not look at the refresh token sees the same store
    after a login. *)
Lemma loginUser_frame {A : Type} (proj : UserDoc -> A) (req : Request)
    (now : nat) (st : Store) :
  (forall d v, proj (with_refreshToken d v) = proj d) ->
  map proj (snd (loginUser P req now st)) = map proj st.
Proof.
  intros Hproj. pose proof (loginUser_inv P req now st) as H.
  destruct (loginUser P req now st) as [[resp|e] st']; cbn [snd].
  - destruct H as (u & v & a & r & _ & _ & _ & _ & _ & ->).
    apply map_update_first. intros d. apply Hproj.
  - now destruct H as [_ ->].
Qed.

Lemma logoutUser_frame {A : Type} (proj : UserDoc -> A) (req : Request)
    (st : Store) :
  (forall d v, proj (with_refreshToken d v) = proj d) ->
  map proj (snd (logoutUser P req st)) = map proj st.
Proof.
  intros Hproj.
  unfold logoutUser, bind, throw, ret, findByIdAndUpdate_unset_refreshToken.
  destruct (req_user req); [|reflexivity].
  destruct (write_fails P st); [reflexivity|].
  cbn [snd]. apply map_update_first. intros d. apply Hproj.
Qed.

Lemma logout_route_frame {A : Type} (proj : UserDoc -> A) (req : Request)
    (now : nat) (st : Store) :
  (forall d v, proj (with_refreshToken d v) = proj d) ->
  map proj (snd (logout_route P req now st)) = map proj st.
Proof.
  intros Hproj. unfold logout_route, bind.
  pose proof (verifyJWT_store P req now st) as Hv.
  destruct (verifyJWT P req now st) as [[req'|e] sx]; cbn [snd] in Hv;
    subst sx; [now apply logoutUser_frame | reflexivity].
Qed.

Lemma NoDup_snoc {A : Type} (l : list A) (x : A) :
  NoDup l -> ~ In x l -> NoDup (l ++ [x]).
Proof.
  intros Hl Hx. apply NoDup_app; [exact Hl | | ].
  - constructor; [intros [] | constructor].
  - intros a Ha [<- | []]. contradiction.
Qed.

Lemma registerUser_store_ok (req : Request) (st : Store) :
  store_ok st -> store_ok (snd (registerUser P req st)).
Proof.
  intros (Hid & Hun & Hem).
  pose proof (registerUser_inv P req st) as H.
  destruct (registerUser P req st) as [[resp|e] st']; cbn [snd].
  - destruct H as (d & plain & -> & Hfresh & _ & _ & _ & Huniq & _).
    destruct (violates_unique_not_in d st Huniq) as [Hn He].
    unfold store_ok. rewrite !map_app. cbn [map].
    repeat split; apply NoDup_snoc; try assumption.
    intros Hx. pose proof (fresh_id_above st _ Hx). lia.
  - destruct H as [-> _]. now repeat split.
Qed.

End SessionFrames.

(** X3.  Login, [logoutUser] and the logout route leave every user's
    profile alone: the store after any of them has the same records in
    the same order with the same identifiers, handles, emails, names,
    avatars, cover images, watch histories and password digests.  The
    statement is about these fields only; it says nothing of the refresh
    token, which these handlers write, nor of the timestamps the mapper
    keeps. *)
Theorem session_handlers_change_only_refresh_tokens :
  forall (P : Platform) (req : Request) (now : nat) (st : Store),
    map profile (snd (loginUser P req now st)) = map profile st
    /\ map profile (snd (logoutUser P req st)) = map profile st
    /\ map profile (snd (logout_route P req now st)) = map profile st.
Proof.
  intros P req now st.
  split; [|split];
    [apply loginUser_frame | apply logoutUser_frame | apply logout_route_frame];
    reflexivity.
Qed.

(** X4.  Identifiers, handles and emails stay unique: a store in which
    each of them identifies at most one record is still such a store after
    any registration, login or logout request, accepted or refused. *)
Theorem handlers_keep_store_ok :
  forall (P : Platform) (req : Request) (now : nat) (st : Store),
    store_ok st ->
    store_ok (snd (registerUser P req st))
    /\ store_ok (snd (loginUser P req now st))
    /\ store_ok (snd (logout_route P req now st)).
Proof.
  intros P req now st Hok.
  split; [now apply registerUser_store_ok|].
  destruct Hok as (Hid & Hun & Hem).
  split; unfold store_ok.
  - rewrite (loginUser_frame P _id), (loginUser_frame P UserName),
      (loginUser_frame P Email) by reflexivity. now repeat split.
  - rewrite (logout_route_frame P _id), (logout_route_frame P UserName),
      (logout_route_frame P Email) by reflexivity. now repeat split.
Qed.

Lemma handlers_keep_store_ok_witness :
  store_ok (snd (registerUser Scenario.platform Scenario.register_taken
                   Scenario.store2))
  /\ store_ok (snd (loginUser Scenario.platform Scenario.login_jane
                      Scenario.clock Scenario.store2))
  /\ store_ok (snd (logout_route Scenario.platform
                      (Scenario.with_cookie
                         (Scenario.token_for Scenario.bob 995))
                      Scenario.clock Scenario.store2)).
Proof.
  assert (Hok : store_ok Scenario.store2).
  { unfold store_ok, Scenario.store2. cbn [map].
    repeat split;
      repeat (constructor; [cbn; intuition discriminate|]); constructor. }
  destruct (handlers_keep_store_ok Scenario.platform
              Scenario.register_taken Scenario.clock Scenario.store2 Hok)
    as (Hreg & _ & _).
  destruct (handlers_keep_store_ok Scenario.platform
              Scenario.login_jane Scenario.clock Scenario.store2 Hok)
    as (_ & Hlogin & _).
  destruct (handlers_keep_store_ok Scenario.platform
              (Scenario.with_cookie (Scenario.token_for Scenario.bob 995))
              Scenario.clock Scenario.store2 Hok)
    as (_ & _ & Hlogout).
  split; [exact Hreg | split; [exact Hlogin | exact Hlogout]].
Defined.

(** X5.  Registration writes once, last, and what it writes is the
    digest.  When it throws one of its own four refusals (blank field,
    taken handle or email, missing avatar, failed avatar upload) or the
    [TypeError] of a missing handle, the store is the one it started
    from.  When it answers, the body held a password, the store has grown
    by exactly one record under an identifier that was free, that record
    holds the hashing library's digest of the submitted password at cost
    11 and no refresh token, and the 201 body is that record without
    password and refresh token. *)
Theorem registerUser_all_or_nothing :
  forall (P : Platform) (req : Request) (st : Store),
    (forall e st',
        registerUser P req st = (Throw e, st') ->
        In e register_errors \/ (exists m, e = TypeError m) ->
        st' = st)
    /\ (forall resp st',
          registerUser P req st = (Ok resp, st') ->
          exists d plain,
            b_password (body req) = Some plain
            /\ st' = (st ++ [d])%list
            /\ lookup (_id d) st = None
            /\ password d = Some (bcrypt_hash P plain 11)
            /\ refreshToken d = None
            /\ status resp = 201
            /\ ar_data (json resp) = DataUser (select_without_secrets d)).
Proof.
  intros P req st. pose proof (registerUser_inv P req st) as H.
  split.
  - intros e st' E _. rewrite E in H. exact (proj1 H).
  - intros resp st' E. rewrite E in H.
    destruct H as (d & plain & -> & Hid & Hplain & Hpw & Hrt & _ & ->).
    exists d, plain. repeat split; try assumption.
    rewrite Hid. apply lookup_fresh_id.
Qed.

Lemma registerUser_all_or_nothing_witness :
  (exists e,
      registerUser Scenario.platform Scenario.register_taken Scenario.store2
      = (Throw e, Scenario.store2)
      /\ In e register_errors)
  /\ exists resp st',
       registerUser Scenario.platform Scenario.register_jane [] = (Ok resp, st')
       /\ exists d plain,
            b_password (body Scenario.register_jane) = Some plain
            /\ st' = ([] ++ [d])%list
            /\ lookup (_id d) [] = None
            /\ password d = Some (bcrypt_hash Scenario.platform plain 11)
            /\ refreshToken d = None
            /\ status resp = 201
            /\ ar_data (json resp) = DataUser (select_without_secrets d).
Proof.
  split.
  - exists (ApiError 409 (Text "UserName or Email already exists")).
    assert (Hin : In (ApiError 409 (Text "UserName or Email already exists"))
                    register_errors) by (right; left; reflexivity).
    split; [|exact Hin].
    destruct (registerUser Scenario.platform Scenario.register_taken
                Scenario.store2) as [r s] eqn:E.
    assert (Hr : r = Throw (ApiError 409
                              (Text "UserName or Email already exists")))
      by (change r with (fst (r, s)); rewrite <- E; vm_compute; reflexivity).
    subst r.
    now rewrite (proj1 (registerUser_all_or_nothing Scenario.platform
                          Scenario.register_taken Scenario.store2)
                   _ s E (or_introl Hin)).
  - do 2 eexists.
    assert (H : forall x : Result Response * Store,
               x = registerUser Scenario.platform Scenario.register_jane [] ->
               registerUser Scenario.platform Scenario.register_jane [] = x)
      by (intros; now subst).
    split.
    + apply H. vm_compute. reflexivity.
    + apply (proj2 (registerUser_all_or_nothing Scenario.platform
                      Scenario.register_jane [])).
      apply H. vm_compute. reflexivity.
Defined.

(** X6.  Login is all or nothing, for a body whose [UserName], [Email]
    and [password] are each a string or absent (numbers, arrays and
    objects, which the JSON parser also delivers, are outside [Body] and
    outside this statement).  When it throws -- the user lookup itself
    having answered -- the store is the one it started from and the
    exception is one of six: the two input errors
    (400), the unknown user (409), the wrong password (401), the
    token-step error (500), or the hashing library's own [Error] -- never
    the status-500 "Failed to generate authentication tokens".  The last
    of the six is what a request without a [password] field gets once its
    user is resolved. *)
Theorem loginUser_all_or_nothing :
  forall (P : Platform) (req : Request) (now : nat) (st : Store),
    (forall e st' found,
        fst (findOne_UserName_or_Email P (b_UserName (body req))
               (b_Email (body req)) st) = Ok found ->
        loginUser P req now st = (Throw e, st') ->
        st' = st
        /\ In e login_errors
        /\ e <> ApiError 500
                  (Text "Failed to generate authentication tokens"))
    /\ (forall u,
          (JsString.truthy_opt (b_Email (body req))
           || JsString.truthy_opt (b_UserName (body req)))%bool = true ->
          b_password (body req) = None ->
          fst (findOne_UserName_or_Email P (b_UserName (body req))
                 (b_Email (body req)) st) = Ok (Some u) ->
          loginUser P req now st
          = (Throw (Error "data and hash arguments required"), st)).
Proof.
  intros P req now st. split.
  - intros e st' found _ E. pose proof (loginUser_inv P req now st) as H.
    rewrite E in H. destruct H as [Hin ->].
    split; [reflexivity|]. split; [exact Hin|].
    unfold login_errors, problem_is_here in Hin. cbn [In] in Hin.
    intros ->.
    repeat (destruct Hin as [Hin | Hin]; [discriminate Hin|]).
    exact Hin.
  - intros u Hident Hpw Hfind.
    unfold findOne_UserName_or_Email in Hfind. cbn [fst] in Hfind.
    injection Hfind as Hfind.
    unfold loginUser, bind, throw, lift, findOne_UserName_or_Email.
    rewrite <- negb_orb, Hident, Hpw. cbn [negb].
    rewrite Hfind. unfold isPasswordCorrect. reflexivity.
Qed.

Lemma loginUser_all_or_nothing_witness :
  loginUser Scenario.platform Cases.login_jane_no_password Scenario.clock
    Scenario.store1
  = (Throw (Error "data and hash arguments required"), Scenario.store1)
  /\ In (Error "data and hash arguments required") login_errors.
Proof.
  assert (Hrun : loginUser Scenario.platform Cases.login_jane_no_password
                   Scenario.clock Scenario.store1
                 = (Throw (Error "data and hash arguments required"),
                    Scenario.store1)).
  { apply (proj2 (loginUser_all_or_nothing Scenario.platform
                    Cases.login_jane_no_password Scenario.clock
                    Scenario.store1) Scenario.jane);
      reflexivity. }
  split; [exact Hrun|].
  exact (proj1 (proj2 (proj1 (loginUser_all_or_nothing Scenario.platform
                                Cases.login_jane_no_password Scenario.clock
                                Scenario.store1)
                         _ _ (Some Scenario.jane) eq_refl Hrun))).
Defined.

(* ================================================================= *)
(** ** The verifier, the tokens and the routes together *)

Section TokenShapes.
Variable P : Platform.

Lemma jwt_verify_throws (token : option JwtString) (secret : option string)
    (now : nat) (c : Exn) :
  jwt_verify P token secret now = Throw c ->
  c = TokenExpiredError \/ exists m, c = JsonWebTokenError m.
Proof.
  unfold jwt_verify.
  destruct token as [[raw|t]|].
  - destruct (JsString.truthy raw);
      [destruct (Nat.eqb _ 3)|]; intros [= <-]; right; eauto.
  - destruct secret as [key|]; [|intros [= <-]; right; eauto].
    destruct (String.eqb _ _); [|intros [= <-]; right; eauto].
    destruct (Nat.leb _ _); [intros [= <-]; now left | discriminate].
  - intros [= <-]; right; eauto.
Qed.

Lemma jwt_sign_inv (pl : Payload) (secret : option string)
    (ttl : option nat) (now : nat) (j : JwtString) :
  jwt_sign P pl secret ttl now = Ok j ->
  exists key life,
    secret = Some key /\ ttl = Some life
    /\ j = Compact {| tk_payload := pl;
                      tk_iat := now;
                      tk_exp := now + life;
                      tk_signature := hmac P key pl now (now + life) |}.
Proof.
  unfold jwt_sign. destruct secret as [key|]; [|discriminate].
  destruct ttl as [life|]; [|discriminate].
  intros [= <-]. now exists key, life.
Qed.

(** A token verifies against the key that signed it exactly until its
    lifetime is over. *)
Lemma jwt_sign_verify_window (pl : Payload) (key : string) (life : nat)
    (now later : nat) (j : JwtString) :
  jwt_sign P pl (Some key) (Some life) now = Ok j ->
  (later < now + life -> jwt_verify P (Some j) (Some key) later = Ok pl)
  /\ (now + life <= later ->
      jwt_verify P (Some j) (Some key) later = Throw TokenExpiredError).
Proof.
  intros [= <-]. unfold jwt_verify; cbn [tk_signature tk_payload tk_iat tk_exp].
  rewrite String.eqb_refl. split; intros H.
  - destruct (Nat.leb_spec (now + life) later); [lia | reflexivity].
  - apply Nat.leb_le in H. now rewrite H.
Qed.

Lemma update_first_idem (f : UserDoc -> bool) (g : UserDoc -> UserDoc)
    (st : Store) :
  (forall d, f (g d) = f d) ->
  (forall d, g (g d) = g d) ->
  update_first f g (update_first f g st) = update_first f g st.
Proof.
  intros Hf Hg. induction st as [|d rest IH]; simpl; [reflexivity|].
  destruct (f d) eqn:E; simpl.
  - now rewrite Hf, E, Hg.
  - now rewrite E, IH.
Qed.

End TokenShapes.

(** X7.  The access verifier never touches the store and never changes a
    request other than by setting [req.user]; whatever it throws is an
    [ApiError] of status 400 whose message is the verification error
    itself, a [TokenExpiredError] or a [JsonWebTokenError]. *)
Theorem verifyJWT_outcomes :
  forall (P : Platform) (req : Request) (now : nat) (st : Store),
    snd (verifyJWT P req now st) = st
    /\ match fst (verifyJWT P req now st) with
       | Ok req' => req' = set_req_user req UserModel
       | Throw e =>
         exists c, e = ApiError 400 (Cause c)
                   /\ (c = TokenExpiredError
                       \/ exists m, c = JsonWebTokenError m)
       end.
Proof.
  intros P req now st. unfold verifyJWT, try_catch, bind, lift, ret, throw.
  destruct (jwt_verify P _ (ACCESS_TOKEN_SECRET P) now) as [claims|c] eqn:E;
    cbn [fst snd].
  - split; reflexivity.
  - split; [reflexivity|]. exists c. split; [reflexivity|].
    exact (jwt_verify_throws P _ _ _ c E).
Qed.

(** X8.  The cookie comes first.  When the [accessToken] cookie holds a
    non-empty string, the [Authorization] header plays no part in the
    verdict, so a bad cookie is not rescued by a good header; when the
    cookie is absent or empty, a header token that verifies is enough. *)
Theorem verifyJWT_cookie_before_header :
  forall (P : Platform) (req : Request) (now : nat) (st : Store),
    (forall c h,
        cookies_accessToken req = Some c ->
        jwt_truthy c = true ->
        thrown (verifyJWT P (set_authorization req h) now st)
        = thrown (verifyJWT P req now st))
    /\ (forall claims,
          (forall c, cookies_accessToken req = Some c ->
                     jwt_truthy c = false) ->
          jwt_verify P (authorization_token req) (ACCESS_TOKEN_SECRET P) now
          = Ok claims ->
          verifyJWT P req now st = (Ok (set_req_user req UserModel), st)).
Proof.
  intros P req now st. split.
  - intros c h Hc Ht.
    unfold thrown, verifyJWT, try_catch, bind, lift, ret, throw.
    cbn [set_authorization cookies_accessToken authorization_token].
    rewrite Hc. unfold or_else. rewrite Ht.
    destruct (jwt_verify P (Some c) (ACCESS_TOKEN_SECRET P) now);
      reflexivity.
  - intros claims Hfalsy Hverify.
    apply (verifyJWT_accepts P req now st claims).
    unfold or_else.
    destruct (cookies_accessToken req) as [c|] eqn:Ec; [|exact Hverify].
    now rewrite (Hfalsy c eq_refl).
Qed.

Lemma verifyJWT_cookie_before_header_witness :
  thrown (verifyJWT Scenario.platform
            (set_authorization Cases.bad_cookie_good_header None)
            Scenario.clock Scenario.store1)
  = thrown (verifyJWT Scenario.platform Cases.bad_cookie_good_header
              Scenario.clock Scenario.store1)
  /\ thrown (verifyJWT Scenario.platform Cases.bad_cookie_good_header
               Scenario.clock Scenario.store1)
     = Some (ApiError 400 (Cause (JsonWebTokenError "jwt malformed")))
  /\ verifyJWT Scenario.platform Cases.empty_cookie_good_header
       Scenario.clock Scenario.store1
     = (Ok (set_req_user Cases.empty_cookie_good_header UserModel),
        Scenario.store1).
Proof.
  split; [|split].
  - apply (proj1 (verifyJWT_cookie_before_header Scenario.platform
                    Cases.bad_cookie_good_header Scenario.clock
                    Scenario.store1) (Malformed "garbage") None);
      reflexivity.
  - reflexivity.
  - apply (proj2 (verifyJWT_cookie_before_header Scenario.platform
                    Cases.empty_cookie_good_header Scenario.clock
                    Scenario.store1)
             (mkPayload 1 (Some "jane@x.com") (Some "janedoe")
                        (Some "Jane Doe"))).
    + intros c [= <-]. reflexivity.
    + reflexivity.
Defined.

(** X9.  The access token of a successful login opens the verifier: a
    request carrying it in the [accessToken] cookie is passed on at every
    instant before login time plus the configured access lifetime, and is
    refused with a wrapped [TokenExpiredError] from that instant on. *)
Theorem login_access_token_passes_verifier :
  forall (P : Platform) (req : Request) (now : nat) (st : Store)
         (resp : Response) (st' : Store),
    loginUser P req now st = (Ok resp, st') ->
    exists accessToken refreshToken life,
      cookies_set resp = [("accessToken", accessToken);
                          ("refreshToken", refreshToken)]
      /\ ACCESS_TOKEN_EXPIRY P = Some life
      /\ forall (req2 : Request) (later : nat) (st2 : Store),
           cookies_accessToken req2 = Some accessToken ->
           (later < now + life ->
            verifyJWT P req2 later st2
            = (Ok (set_req_user req2 UserModel), st2))
           /\ (now + life <= later ->
               verifyJWT P req2 later st2
               = (Throw (ApiError 400 (Cause TokenExpiredError)), st2)).
Proof.
  intros P req now st resp st' E.
  pose proof (loginUser_inv P req now st) as H. rewrite E in H.
  destruct H as (u & v & a & r & _ & _ & Ha & _ & -> & _).
  unfold generateAccessToken in Ha.
  destruct (jwt_sign_inv P _ _ _ _ _ Ha) as (key & life & Hkey & Hlife & Hj).
  exists a, r, life. split; [reflexivity|]. split; [exact Hlife|].
  intros req2 later st2 Hcookie.
  rewrite Hkey, Hlife in Ha.
  destruct (jwt_sign_verify_window P _ key life now later a Ha)
    as [Hlive Hdead].
  assert (Htoken : or_else (cookies_accessToken req2)
                     (authorization_token req2) = Some a).
  { rewrite Hcookie. unfold or_else.
    now rewrite (jwt_sign_truthy P _ _ _ _ _ Ha). }
  split; intros Hlater.
  - eapply verifyJWT_accepts. rewrite Htoken, Hkey. now apply Hlive.
  - apply verifyJWT_rejects. rewrite Htoken, Hkey. now apply Hdead.
Qed.

Lemma login_access_token_passes_verifier_witness :
  exists resp st',
    loginUser Scenario.platform Scenario.login_jane Scenario.clock
      Scenario.store1 = (Ok resp, st')
    /\ exists accessToken refreshToken life,
         cookies_set resp = [("accessToken", accessToken);
                             ("refreshToken", refreshToken)]
         /\ ACCESS_TOKEN_EXPIRY Scenario.platform = Some life
         /\ forall (req2 : Request) (later : nat) (st2 : Store),
              cookies_accessToken req2 = Some accessToken ->
              (later < Scenario.clock + life ->
               verifyJWT Scenario.platform req2 later st2
               = (Ok (set_req_user req2 UserModel), st2))
              /\ (Scenario.clock + life <= later ->
                  verifyJWT Scenario.platform req2 later st2
                  = (Throw (ApiError 400 (Cause TokenExpiredError)), st2)).
Proof.
  do 2 eexists.
  assert (H : forall x : Result Response * Store,
             x = loginUser Scenario.platform Scenario.login_jane
                   Scenario.clock Scenario.store1 ->
             loginUser Scenario.platform Scenario.login_jane
               Scenario.clock Scenario.store1 = x) by (intros; now subst).
  split.
  - apply H. vm_compute. reflexivity.
  - eapply login_access_token_passes_verifier.
    apply H. vm_compute. reflexivity.
Defined.

(** X10.  The refresh token carries the identifier and nothing else.  It
    verifies against the refresh secret, to claims holding only [_id],
    until its own lifetime is over; presented to the access verifier it is
    refused as wrongly signed whenever the access secret gives another tag
    than the refresh secret did. *)
Theorem refresh_token_round_trip :
  forall (P : Platform) (u : UserDoc) (now later : nat)
         (key : string) (life : nat),
    REFRESH_TOKEN_SECRET P = Some key ->
    REFRESH_TOKEN_EXPIRY P = Some life ->
    exists t,
      generateRefreshToken P u now = Ok (Compact t)
      /\ tk_payload t = mkPayload (_id u) None None None
      /\ (later < now + life ->
          jwt_verify P (Some (Compact t)) (REFRESH_TOKEN_SECRET P) later
          = Ok (mkPayload (_id u) None None None))
      /\ (now + life <= later ->
          jwt_verify P (Some (Compact t)) (REFRESH_TOKEN_SECRET P) later
          = Throw TokenExpiredError)
      /\ (forall access_key req st,
             ACCESS_TOKEN_SECRET P = Some access_key ->
             hmac P access_key (tk_payload t) (tk_iat t) (tk_exp t)
             <> tk_signature t ->
             cookies_accessToken req = Some (Compact t) ->
             verifyJWT P req later st
             = (Throw (ApiError 400
                         (Cause (JsonWebTokenError "invalid signature"))),
                st)).
Proof.
  intros P u now later key life Hkey Hlife.
  assert (Hsign : generateRefreshToken P u now
                  = jwt_sign P (mkPayload (_id u) None None None)
                      (Some key) (Some life) now).
  { unfold generateRefreshToken. now rewrite Hkey, Hlife. }
  eexists. split; [rewrite Hsign; reflexivity|].
  split; [reflexivity|].
  destruct (jwt_sign_verify_window P (mkPayload (_id u) None None None)
              key life now later _ eq_refl) as [Hlive Hdead].
  rewrite Hkey.
  split; [exact Hlive|]. split; [exact Hdead|].
  intros access_key req st Hak Htag Hcookie.
  apply verifyJWT_rejects. rewrite Hcookie, Hak.
  apply jwt_verify_bad_signature. intros Heq. apply Htag. now rewrite Heq.
Qed.

Lemma refresh_token_round_trip_witness :
  exists t,
    generateRefreshToken Scenario.platform Scenario.jane 1000
    = Ok (Compact t)
    /\ jwt_verify Scenario.platform (Some (Compact t))
         (REFRESH_TOKEN_SECRET Scenario.platform) 4599
       = Ok (mkPayload 1 None None None)
    /\ verifyJWT Scenario.platform (Scenario.with_cookie (Compact t)) 4599
         Scenario.store1
       = (Throw (ApiError 400
                   (Cause (JsonWebTokenError "invalid signature"))),
          Scenario.store1).
Proof.
  destruct (refresh_token_round_trip Scenario.platform Scenario.jane
              1000 4599 "refresh-secret" 3600 eq_refl eq_refl)
    as (t & Hgen & _ & Hlive & _ & Hcross).
  exists t. split; [exact Hgen|]. split.
  - apply Hlive. apply Nat.ltb_lt. reflexivity.
  - apply (Hcross "access-secret"); [reflexivity | | reflexivity].
    injection Hgen as <-. discriminate.
Defined.

(** X11.  [logoutUser] on a request whose [req.user] is a record: the
    answer is 200 with both cookies cleared, the stored record of that
    identifier has no refresh token any more and the profile it had
    (identifier, handle, email, name, avatar, cover image, watch history,
    password digest), every other record is as it was, and after logging
    out again the record still has no refresh token and the same
    profile.  Nothing is said of the record's timestamps. *)
Theorem logoutUser_clears_only_attached :
  forall (P : Platform) (req : Request) (st : Store)
         (attached u : UserDoc),
    req_user req = Some (UserRecord attached) ->
    lookup (_id attached) st = Some u ->
    write_fails P st = false ->
    exists st' u',
      logoutUser P req st
      = (Ok {| status := 200;
               cookies_set := [];
               cookies_cleared := ["accessToken"; "refreshToken"];
               json := mkApiResponse 200 DataEmpty
                         "user logged out successfully" |},
         st')
      /\ lookup (_id attached) st' = Some u'
      /\ refreshToken u' = None
      /\ profile u' = profile u
      /\ (forall id, id <> _id attached -> lookup id st' = lookup id st)
      /\ exists u2,
           lookup (_id attached) (snd (logoutUser P req st')) = Some u2
           /\ refreshToken u2 = None
           /\ profile u2 = profile u.
Proof.
  intros P req st attached u Hreq Hlook Hw.
  assert (Hsame : lookup (_id attached)
                    (update_first (has_id (_id attached)) without_session st)
                  = Some (without_session u))
    by now apply (lookup_update_first_same without_session (_id attached)).
  exists (update_first (has_id (_id attached)) without_session st),
    (without_session u).
  unfold logoutUser, bind, ret, findByIdAndUpdate_unset_refreshToken.
  rewrite Hreq, Hw. cbn [attached_id id_clause].
  split; [reflexivity|]. split; [exact Hsame|].
  split; [reflexivity|]. split; [reflexivity|]. split.
  - intros id Hid. apply lookup_update_first_other; [reflexivity|].
    intros d Hd. destruct (first_match_In _ _ _ Hd) as [_ Hd'].
    apply Nat.eqb_eq in Hd'. congruence.
  - exists (without_session u).
    split; [|split; reflexivity].
    destruct (write_fails P
                (update_first (has_id (_id attached)) without_session st));
      [exact Hsame|].
    cbn [snd]. rewrite update_first_idem; [exact Hsame | |]; reflexivity.
Qed.

Lemma logoutUser_clears_only_attached_witness :
  exists st' u',
    logoutUser Scenario.platform Cases.with_bob_attached Scenario.store2
    = (Ok {| status := 200;
             cookies_set := [];
             cookies_cleared := ["accessToken"; "refreshToken"];
             json := mkApiResponse 200 DataEmpty
                       "user logged out successfully" |},
       st')
    /\ lookup 2 st' = Some u'
    /\ refreshToken u' = None
    /\ profile u' = profile Scenario.bob.
Proof.
  destruct (logoutUser_clears_only_attached Scenario.platform
              Cases.with_bob_attached Scenario.store2
              (select_without_secrets Scenario.bob) Scenario.bob
              eq_refl eq_refl eq_refl)
    as (st' & u' & Hrun & Hlook & Hrt & Hprof & _).
  exists st', u'. repeat split; assumption.
Defined.

(** X12.  On the logout route, a request whose credential does not verify
    is refused with the verifier's status-400 error before [logoutUser]
    runs: no cookie is cleared and the store is as it was.  For requests
    whose credential does verify, response and store do not depend on the
    request at all: whoever the token names, the route does the same
    thing. *)
Theorem logout_route_ignores_identity :
  forall (P : Platform) (req1 req2 : Request) (now : nat) (st : Store),
    (forall e,
        jwt_verify P
          (or_else (cookies_accessToken req1) (authorization_token req1))
          (ACCESS_TOKEN_SECRET P) now = Throw e ->
        logout_route P req1 now st = (Throw (ApiError 400 (Cause e)), st))
    /\ (forall claims1 claims2,
          jwt_verify P
            (or_else (cookies_accessToken req1) (authorization_token req1))
            (ACCESS_TOKEN_SECRET P) now = Ok claims1 ->
          jwt_verify P
            (or_else (cookies_accessToken req2) (authorization_token req2))
            (ACCESS_TOKEN_SECRET P) now = Ok claims2 ->
          logout_route P req1 now st = logout_route P req2 now st).
Proof.
  intros P req1 req2 now st. split.
  - intros e He. unfold logout_route, bind.
    now rewrite (verifyJWT_rejects P req1 now st e He).
  - intros c1 c2 H1 H2. unfold logout_route, bind.
    rewrite (verifyJWT_accepts P req1 now st c1 H1),
      (verifyJWT_accepts P req2 now st c2 H2).
    reflexivity.
Qed.

Lemma logout_route_ignores_identity_witness :
  logout_route Scenario.platform
    (Scenario.with_cookie (Scenario.token_for Scenario.jane 995))
    Scenario.clock Scenario.store2
  = logout_route Scenario.platform
      (Scenario.with_cookie (Scenario.token_for Scenario.bob 995))
      Scenario.clock Scenario.store2
  /\ logout_route Scenario.platform (Scenario.with_cookie (Malformed "x"))
       Scenario.clock Scenario.store2
     = (Throw (ApiError 400 (Cause (JsonWebTokenError "jwt malformed"))),
        Scenario.store2).
Proof.
  split.
  - apply (proj2 (logout_route_ignores_identity Scenario.platform
                    (Scenario.with_cookie
                       (Scenario.token_for Scenario.jane 995))
                    (Scenario.with_cookie
                       (Scenario.token_for Scenario.bob 995))
                    Scenario.clock Scenario.store2)
             (mkPayload 1 (Some "jane@x.com") (Some "janedoe")
                        (Some "Jane Doe"))
             (mkPayload 2 (Some "bob@x.com") (Some "bob") (Some "Bob")));
      reflexivity.
  - apply (proj1 (logout_route_ignores_identity Scenario.platform
                    (Scenario.with_cookie (Malformed "x"))
                    (Scenario.with_cookie (Malformed "x"))
                    Scenario.clock Scenario.store2)).
    reflexivity.
Defined.

(** X13.  When [generateAccessAndRefreshToken] returns a pair, a record
    with the identifier was stored, both tokens were issued at the current
    instant from that record -- the access token over its identifier,
    email, handle and name, the refresh token over the identifier alone --
    the record now holds exactly the returned refresh token, and no other
    record changed. *)
Theorem generateAccessAndRefreshToken_returns_stored_pair :
  forall (P : Platform) (userId : ObjectId) (now : nat) (st st' : Store)
         (accessToken refreshToken : JwtString),
    generateAccessAndRefreshToken P userId now st
    = (Ok (accessToken, refreshToken), st') ->
    exists v ta tr,
      lookup userId st = Some v
      /\ _id v = userId
      /\ lookup userId st' = Some (with_refreshToken v (Some refreshToken))
      /\ (forall id, id <> userId -> lookup id st' = lookup id st)
      /\ accessToken = Compact ta
      /\ tk_payload ta = mkPayload userId (Some (Email v))
                           (Some (UserName v)) (Some (fullName v))
      /\ tk_iat ta = now
      /\ refreshToken = Compact tr
      /\ tk_payload tr = mkPayload userId None None None
      /\ tk_iat tr = now.
Proof.
  intros P userId now st st' a r E.
  pose proof (generateAccessAndRefreshToken_inv P userId now st) as H.
  rewrite E in H. destruct H as (v & Hlook & Ha & Hr & _ & ->).
  destruct (first_match_In _ _ _ Hlook) as [_ Hid].
  apply Nat.eqb_eq in Hid.
  unfold generateAccessToken in Ha. unfold generateRefreshToken in Hr.
  destruct (jwt_sign_inv P _ _ _ _ _ Ha) as (ka & la & _ & _ & ->).
  destruct (jwt_sign_inv P _ _ _ _ _ Hr) as (kr & lr & _ & _ & ->).
  do 3 eexists.
  split; [exact Hlook|]. split; [exact Hid|]. split; [|split].
  - now apply (lookup_update_first_same
                 (fun d => with_refreshToken d (Some _)) userId).
  - intros id Hne. apply lookup_update_first_other; [reflexivity|].
    intros d Hd. destruct (first_match_In _ _ _ Hd) as [_ Hd'].
    apply Nat.eqb_eq in Hd'. congruence.
  - rewrite <- Hid. cbn. repeat split; reflexivity.
Qed.

Lemma generateAccessAndRefreshToken_returns_stored_pair_witness :
  exists accessToken refreshToken st',
    generateAccessAndRefreshToken Scenario.platform 2 Scenario.clock
      Scenario.store2 = (Ok (accessToken, refreshToken), st')
    /\ exists v ta tr,
         lookup 2 Scenario.store2 = Some v
         /\ _id v = 2
         /\ lookup 2 st' = Some (with_refreshToken v (Some refreshToken))
         /\ (forall id, id <> 2 -> lookup id st' = lookup id Scenario.store2)
         /\ accessToken = Compact ta
         /\ tk_payload ta = mkPayload 2 (Some (Email v))
                              (Some (UserName v)) (Some (fullName v))
         /\ tk_iat ta = Scenario.clock
         /\ refreshToken = Compact tr
         /\ tk_payload tr = mkPayload 2 None None None
         /\ tk_iat tr = Scenario.clock.
Proof.
  do 3 eexists.
  assert (H : forall x : Result (JwtString * JwtString) * Store,
             x = generateAccessAndRefreshToken Scenario.platform 2
                   Scenario.clock Scenario.store2 ->
             generateAccessAndRefreshToken Scenario.platform 2
               Scenario.clock Scenario.store2 = x) by (intros; now subst).
  split.
  - apply H. vm_compute. reflexivity.
  - eapply generateAccessAndRefreshToken_returns_stored_pair.
    apply H. vm_compute. reflexivity.
Defined.

(** X14.  The logout route never changes a record other than the first of
    the collection: after any request the store is either the one before,
    or the one before with the first record's refresh token unset; and
    when the mapper compares an undefined filter value with null, the
    route changes nothing at all. *)
Theorem logout_route_touches_at_most_first :
  forall (P : Platform) (req : Request) (now : nat) (st : Store),
    (snd (logout_route P req now st) = st
     \/ exists first rest,
          st = first :: rest
          /\ snd (logout_route P req now st) = without_session first :: rest)
    /\ (undefined_matches_all P = false ->
        snd (logout_route P req now st) = st).
Proof.
  intros P req now st.
  assert (Hshape : snd (logout_route P req now st) = st
                   \/ snd (logout_route P req now st)
                      = update_first (fun _ => undefined_matches_all P)
                          without_session st).
  { unfold logout_route, bind.
    destruct (jwt_verify P
                (or_else (cookies_accessToken req) (authorization_token req))
                (ACCESS_TOKEN_SECRET P) now) as [claims|e] eqn:E.
    2: { rewrite (verifyJWT_rejects P req now st e E). now left. }
    rewrite (verifyJWT_accepts P req now st claims E).
    unfold logoutUser, bind, ret, findByIdAndUpdate_unset_refreshToken.
    cbn [set_req_user req_user attached_id].
    destruct (write_fails P st); [now left | right; reflexivity]. }
  split.
  - destruct Hshape as [H | H]; [now left|].
    destruct (undefined_matches_all P).
    + destruct st as [|first rest]; [now left|].
      right. exists first, rest. split; [reflexivity | exact H].
    + left. rewrite H. now apply update_first_no_match.
  - intros Hnull. destruct Hshape as [H | H]; [exact H|].
    rewrite H, Hnull. now apply update_first_no_match.
Qed.

Lemma logout_route_touches_at_most_first_witness :
  snd (logout_route Scenario.platform
         (Scenario.with_cookie (Scenario.token_for Scenario.bob 995))
         Scenario.clock Scenario.store2)
  = Scenario.store2.
Proof.
  apply (proj2 (logout_route_touches_at_most_first Scenario.platform
                  (Scenario.with_cookie (Scenario.token_for Scenario.bob 995))
                  Scenario.clock Scenario.store2)).
  reflexivity.
Defined.
